(** * Resume analyzer: skill counting, suggestions and report

    A shallow embedding of [resume_analyzer.py] and the properties of its
    skill counter, suggestion engine, report formatter and command-line
    driver.

    Conventions of the embedding.
    - A Python [str] is a [string]; one [ascii] stands for one character.
      Inputs (resume text, category and skill names) are taken in the ASCII
      range, where [str.lower] is the character-wise lowering [lower] below.
      The few non-ASCII characters of the source's literals (the bullet and
      the pictographs of the messages) are carried as the bytes the source
      file holds for them; they are only ever concatenated, never counted.
    - A Python [int] is a [Z].
    - The taxonomy [skills_db] is a [dict] that is only iterated, in
      insertion order: an association list [(category, skills)].
    - [skill_counts] is a [defaultdict(int)] that is looked up, updated by
      key, tested for emptiness and sorted: a [gmap string Z].  Reading a
      missing key of a [defaultdict(int)] gives 0, here [default 0 (m !! k)].
    - File system, PDF library and standard output are an explicit [world]
      and a trace of [event]s, exceptions are values of an error monad. *)

From Stdlib Require Import ZArith Ascii DecimalString Sorted Permutation.
From Stdlib Require String.
From stdpp Require Import gmap strings list fin_maps.

Local Open Scope Z_scope.

(** ** Python built-ins used by the analyzer *)

Module Py.

(** The newline character of the source's ["\n"]. *)
Definition nl : string := String (ascii_of_nat 10) EmptyString.

(** [c.lower()] for one ASCII character: [A]..[Z] move to [a]..[z]. *)
Definition lower_char (c : ascii) : ascii :=
  let n := N_of_ascii c in
  if ((65 <=? n) && (n <=? 90))%N then ascii_of_N (n + 32) else c.

(** [s.lower()]. *)
Fixpoint lower (s : string) : string :=
  match s with
  | EmptyString => EmptyString
  | String c s' => String (lower_char c) (lower s')
  end.

(** [len(s)]. *)
Definition len (s : string) : Z := Z.of_nat (String.length s).

(** [sub in text]: [sub] starts at some position of [text]. *)
Fixpoint contains (sub text : string) : bool :=
  String.prefix sub text ||
  match text with
  | EmptyString => false
  | String _ text' => contains sub text'
  end.

(** The scan of [text.count(sub)] for a non-empty [sub]: [skip] is the
    number of characters still covered by the last match, which no new
    match may start on (matches do not overlap). *)
Fixpoint count_scan (sub : string) (skip : nat) (text : string) : Z :=
  match text with
  | EmptyString => 0
  | String _ text' =>
      match skip with
      | S k => count_scan sub k text'
      | O =>
          if String.prefix sub text
          then 1 + count_scan sub (String.length sub - 1) text'
          else count_scan sub 0 text'
      end
  end.

(** [text.count(sub)]: the number of non-overlapping occurrences found from
    left to right; the empty string occurs [len(text) + 1] times. *)
Definition count (text sub : string) : Z :=
  match sub with
  | EmptyString => len text + 1
  | String _ _ => count_scan sub 0 text
  end.

(** [str(n)] for an [int]. *)
Definition str (n : Z) : string := NilZero.string_of_int (Z.to_int n).

(** [sep.join(parts)]. *)
Definition join (sep : string) (parts : list string) : string :=
  String.concat sep parts.

(** [a < b] on strings: lexicographic on character codes. *)
Definition str_ltb (a b : string) : bool := String.ltb a b.

(** [a < b] on the pairs [(int, str)] the report sorts by. *)
Definition key_ltb (a b : Z * string) : bool :=
  if a.1 =? b.1 then str_ltb a.2 b.2 else a.1 <? b.1.

(** [os.path.basename(p)]: what follows the last ["/"]; [cur] is the
    component read so far. *)
Fixpoint basename_from (cur p : string) : string :=
  match p with
  | EmptyString => cur
  | String c p' =>
      if Ascii.eqb c "/"%char then basename_from EmptyString p'
      else basename_from (cur +:+ String c EmptyString) p'
  end.

Definition basename (p : string) : string := basename_from EmptyString p.

Section Sorted.
Context {A K : Type} (key : A → K) (ltb : K → K → bool).

(** One step of a stable sort: [x] stood before every element of the
    sorted [l], so it goes before the first element that is not smaller
    than it. *)
Fixpoint insert_by (x : A) (l : list A) : list A :=
  match l with
  | [] => [x]
  | y :: l' => if ltb (key y) (key x) then y :: insert_by x l' else x :: l
  end.

(** [sorted(l, key=key)]: Python's sort is stable, and a stable sort has
    one possible result, which insertion from the right computes. *)
Fixpoint sorted (l : list A) : list A :=
  match l with
  | [] => []
  | x :: l' => insert_by x (sorted l')
  end.

(** [a] may stand before [b]: the key of [b] is not the smaller one. *)
Definition key_le (a b : A) : Prop := ltb (key b) (key a) = false.
(** [a] must stand before [b]: its key is the smaller one. *)
Definition key_lt (a b : A) : Prop := ltb (key a) (key b) = true.
End Sorted.

End Py.

(** ** The analyzer *)

(** [Dict[str, List[str]]], in insertion order. *)
Abbreviation taxonomy := (list (string * list string)).

Definition SKILLS_DB_FILE : string := "skills_db.json".

Definition DEFAULT_SKILLS : taxonomy :=
  [ ("Programming", ["Python"; "Java"; "C++"; "JavaScript"; "SQL"; "R"; "Go"]);
    ("Data", ["SQL"; "NoSQL"; "Spark"; "Pandas"; "Tableau"; "PowerBI"; "Excel"]);
    ("ML/AI", ["Machine Learning"; "Deep Learning"; "TensorFlow"; "PyTorch"; "NLP"]);
    ("DevOps", ["Docker"; "Kubernetes"; "AWS"; "Azure"; "CI/CD"; "Terraform"]);
    ("Soft Skills", ["Leadership"; "Communication"; "Teamwork"; "Problem Solving"]) ].

(** The body of the inner loop of [analyze_skills]:
    [if skill.lower() in text: skill_counts[skill] += text.count(skill.lower())]. *)
Definition count_skill (text : string) (skill_counts : gmap string Z)
    (skill : string) : gmap string Z :=
  if Py.contains (Py.lower skill) text
  then <[skill := default 0 (skill_counts !! skill)
                  + Py.count text (Py.lower skill)]> skill_counts
  else skill_counts.

(** The inner loop, over the skills of one category. *)
Definition count_category (text : string) (skill_counts : gmap string Z)
    (entry : string * list string) : gmap string Z :=
  foldl (count_skill text) skill_counts entry.2.

(** [analyze_skills]: both loops, from the empty [defaultdict(int)]. *)
Definition analyze_skills (skills_db : taxonomy) (text : string)
    : gmap string Z :=
  foldl (count_category text) ∅ skills_db.

(** [s in skill_counts]. *)
Definition has_key (skill_counts : gmap string Z) (s : string) : bool :=
  bool_decide (is_Some (skill_counts !! s)).

(** [s in found] for a list. *)
Definition in_list (found : list string) (s : string) : bool :=
  bool_decide (s ∈ found).

Definition missing_message (category : string) (skills : list string) : string :=
  "⚠️ Missing " +:+ category +:+ " skills. Consider adding "
    +:+ Py.join ", " (take 3 skills) +:+ "...".

Definition few_message (category : string) (missing : list string) : string :=
  "ℹ️ Few " +:+ category +:+ " skills. Could add " +:+ Py.join ", " missing.

(** The body of the loop of [suggest_improvements]: [suggestions] after the
    category [entry] has been looked at. *)
Definition suggest_step (skill_counts : gmap string Z)
    (suggestions : list string) (entry : string * list string) : list string :=
  let '(category, skills) := entry in
  let found := filter (λ s, has_key skill_counts s = true) skills in
  match found with
  | [] => suggestions ++ [missing_message category skills]
  | _ =>
      if (Z.of_nat (length found) <? 2)
      then
        let missing := take 2 (filter (λ s, in_list found s = false) skills) in
        suggestions ++ [few_message category missing]
      else suggestions
  end.

Definition suggest_improvements (skills_db : taxonomy)
    (skill_counts : gmap string Z) : list string :=
  foldl (suggest_step skill_counts) [] skills_db.

(** The key of the report's sort, [lambda x: (-x[1], x[0])]. *)
Definition report_key (x : string * Z) : Z * string := (- x.2, x.1).

(** One line of the report,
    [f"• {skill}: {cnt} mention{'s' if cnt > 1 else ''}"]. *)
Definition skill_line (x : string * Z) : string :=
  "• " +:+ x.1 +:+ ": " +:+ Py.str x.2 +:+ " mention"
    +:+ (if 1 <? x.2 then "s" else "").

Definition report_header : string := Py.nl +:+ "=== SKILL ANALYSIS ===".
Definition no_skills_line : string := "No skills detected in resume.".
Definition suggestions_header : string := Py.nl +:+ "=== SUGGESTIONS ===".
Definition all_good_line : string :=
  Py.nl +:+ "✅ All good! Your resume covers diverse skill areas.".

(** [skill_counts.items()] in the order the report gives them. *)
Definition sorted_items (skill_counts : gmap string Z) : list (string * Z) :=
  Py.sorted report_key Py.key_ltb (map_to_list skill_counts).

(** The list [lines] at the end of [generate_report]. *)
Definition report_lines (skill_counts : gmap string Z)
    (suggestions : list string) : list string :=
  [report_header]
  ++ (if decide (skill_counts = ∅) then [no_skills_line]
      else skill_line <$> sorted_items skill_counts)
  ++ (match suggestions with
      | [] => [all_good_line]
      | _ => suggestions_header :: suggestions
      end).

Definition generate_report (skill_counts : gmap string Z)
    (suggestions : list string) : string :=
  Py.join Py.nl (report_lines skill_counts suggestions).

(** ** The command-line driver and its collaborators *)

(** The exceptions the driver's [except Exception] can see, with the text
    [str(e)] gives. *)
Inductive exception : Type :=
  | FileNotFoundError (msg : string)
  | OtherError (msg : string).

Definition exception_str (e : exception) : string :=
  match e with
  | FileNotFoundError msg => msg
  | OtherError msg => msg
  end.

(** What the program does to the outside, in order. *)
Inductive event : Type :=
  | PathExists (path : string)   (* [os.path.exists(path)] *)
  | OpenJson (path : string)     (* [open(path, 'r')] and [json.load] *)
  | OpenPdf (path : string)      (* [fitz.open(path)] and [get_text] of its pages *)
  | Print (line : string)        (* [print(line)] *)
  | Exit (code : Z).             (* [exit(code)] *)

(** The outside: which paths exist, what reading a JSON taxonomy from a path
    gives, and what text the pages of the PDF at a path hold.  The last two
    raise when the file cannot be opened or parsed. *)
Record world : Type := {
  path_exists : string → bool;
  json_file : string → exception + taxonomy;
  pdf_pages : string → exception + list string }.

(** A computation: the events so far, and an exception or a result. *)
Definition io (A : Type) : Type := list event * (exception + A).

Global Instance io_ret : MRet io := λ A x, ([], inr x).
Global Instance io_bind : MBind io := λ A B f m,
  match m with
  | (tr, inl e) => (tr, inl e)
  | (tr, inr x) => let '(tr', r) := f x in (tr ++ tr', r)
  end.

Definition raise {A : Type} (e : exception) : io A := ([], inl e).
Definition emit {A : Type} (ev : event) (r : exception + A) : io A := ([ev], r).

Definition os_path_exists (w : world) (path : string) : io bool :=
  emit (PathExists path) (inr (path_exists w path)).
Definition json_load (w : world) (path : string) : io taxonomy :=
  emit (OpenJson path) (json_file w path).
Definition fitz_open (w : world) (path : string) : io (list string) :=
  emit (OpenPdf path) (pdf_pages w path).
Definition print (line : string) : io unit := emit (Print line) (inr ()).

(** [ResumeAnalyzer.load_skills_db]. *)
Definition load_skills_db (w : world) : io taxonomy :=
  present ← os_path_exists w SKILLS_DB_FILE;
  if present : bool then json_load w SKILLS_DB_FILE else mret DEFAULT_SKILLS.

(** [ResumeAnalyzer.__init__]: the taxonomy the analyzer keeps.  [None] and
    the empty [dict] are both false for the source's [if skills_db]. *)
Definition ResumeAnalyzer (w : world) (skills_db : option taxonomy) : io taxonomy :=
  match skills_db with
  | Some (entry :: db) => mret (entry :: db)
  | Some [] | None => load_skills_db w
  end.

(** [ResumeAnalyzer.extract_text]. *)
Definition extract_text (w : world) (pdf_path : string) : io string :=
  present ← os_path_exists w pdf_path;
  if negb present
  then raise (FileNotFoundError ("File not found: " +:+ pdf_path))
  else
    pages ← fitz_open w pdf_path;
    mret (Py.lower (foldl String.app "" pages)).

(** The parsed command line: [args.resume] and [args.skills]. *)
Record arguments : Type := {
  resume : string;
  skills : option string }.

(** The [try] block of [main]. *)
Definition main_try (w : world) (args : arguments) : io unit :=
  skills_db ←
    match skills args with
    | None | Some EmptyString => mret None
    | Some path => db ← json_load w path; mret (Some db)
    end;
  analyzer ← ResumeAnalyzer w skills_db;
  text ← extract_text w (resume args);
  let counts := analyze_skills analyzer text in
  let suggestions := suggest_improvements analyzer counts in
  _ ← print (Py.nl +:+ "📄 Analyzing: " +:+ Py.basename (resume args));
  print (generate_report counts suggestions).

(** [main] after [parse_args]: the events of the run and the exit status of
    the process.  Any exception of the [try] block is printed and followed
    by [exit(1)]. *)
Definition main (w : world) (args : arguments) : list event * Z :=
  match main_try w args with
  | (tr, inr _) => (tr, 0)
  | (tr, inl e) =>
      (tr ++ [Print (Py.nl +:+ "❌ Error: " +:+ exception_str e); Exit 1], 1)
  end.

(** ** Vocabulary of the properties *)

(** Every skill the taxonomy lists, in the order [analyze_skills] visits
    them; a name listed several times is there several times. *)
Definition all_skills (skills_db : taxonomy) : list string :=
  concat (snd <$> skills_db).

(** How many times [skill] is listed in [skills]. *)
Definition listings (skill : string) (skills : list string) : nat :=
  length (filter (λ s, s = skill) skills).

(** How many categories of the taxonomy list [skill]. *)
Definition categories_containing (skills_db : taxonomy) (skill : string) : nat :=
  length (filter (λ entry, skill ∈ entry.2) skills_db).

(** The suggestion engine as the specification words it, one category at a
    time: a "missing category" message when no skill of the category is a
    key of the counts, a "few skills" message with up to two skills of the
    category that are not keys when fewer than two are, nothing otherwise. *)
Definition category_suggestion (skill_counts : gmap string Z)
    (entry : string * list string) : list string :=
  let found := filter (λ s, is_Some (skill_counts !! s)) entry.2 in
  if decide (found = []) then
    [missing_message entry.1 entry.2]
  else if decide (length found < 2)%nat then
    [few_message entry.1
       (take 2 (filter (λ s, skill_counts !! s = None) entry.2))]
  else [].

(** The lines that close the report, after the skills. *)
Definition suggestion_lines (suggestions : list string) : list string :=
  match suggestions with
  | [] => [all_good_line]
  | _ => suggestions_header :: suggestions
  end.

(** No line is printed by [ev]. *)
Definition prints_nothing (ev : event) : Prop :=
  match ev with Print _ => False | _ => True end.

(** No document is opened by [ev]. *)
Definition opens_no_pdf (ev : event) : Prop :=
  match ev with OpenPdf _ => False | _ => True end.

(** The lines a run prints, in order. *)
Definition printed (events : list event) : list string :=
  omap (λ ev, match ev with Print line => Some line | _ => None end) events.

(** The process is not told to exit by [ev]. *)
Definition exits_nowhere (ev : event) : Prop :=
  match ev with Exit _ => False | _ => True end.

(** ** Facts about the built-ins *)

Section StringFacts.

Lemma prefix_empty (text : string) : String.prefix "" text = true.
Proof. by destruct text. Qed.

Lemma contains_empty (text : string) : Py.contains "" text = true.
Proof. destruct text; simpl; by rewrite ?prefix_empty. Qed.

Lemma contains_in_empty (sub : string) :
  sub ≠ "" → Py.contains sub "" = false.
Proof. by destruct sub. Qed.

Lemma lower_empty (s : string) : Py.lower s = "" → s = "".
Proof. by destruct s. Qed.

Lemma count_scan_nonneg (sub : string) (text : string) :
  ∀ skip, 0 ≤ Py.count_scan sub skip text.
Proof.
  induction text as [|c text IH]; intros skip; [simpl; lia|].
  cbn [Py.count_scan]. destruct skip as [|k]; [|apply IH].
  destruct (String.prefix sub (String c text)).
  - specialize (IH (String.length sub - 1)%nat). lia.
  - apply IH.
Qed.

(** A non-empty substring is in the text exactly when the scan finds it. *)
Lemma contains_count_scan (sub text : string) :
  sub ≠ "" → Py.contains sub text = true ↔ 1 ≤ Py.count_scan sub 0 text.
Proof.
  intros Hsub. induction text as [|c text IH].
  - rewrite contains_in_empty by done. simpl. split; [done | lia].
  - cbn [Py.contains Py.count_scan].
    destruct (String.prefix sub (String c text)) eqn:Hp; cbn [orb].
    + pose proof (count_scan_nonneg sub text (String.length sub - 1)).
      split; [lia | done].
    + apply IH.
Qed.

(** [sub in text] and [text.count(sub) >= 1] agree. *)
Lemma contains_count (sub text : string) :
  Py.contains sub text = true ↔ 1 ≤ Py.count text sub.
Proof.
  destruct sub as [|a sub].
  - rewrite contains_empty. simpl. unfold Py.len. split; [lia | done].
  - by apply contains_count_scan.
Qed.

Lemma count_nonneg (sub text : string) : 0 ≤ Py.count text sub.
Proof.
  destruct sub; simpl; [unfold Py.len; lia | apply count_scan_nonneg].
Qed.

Lemma not_contains_count (sub text : string) :
  Py.contains sub text = false ↔ Py.count text sub = 0.
Proof.
  pose proof (contains_count sub text) as H.
  pose proof (count_nonneg sub text).
  destruct (Py.contains sub text); split; intros; try done.
  - assert (1 ≤ Py.count text sub) by by apply H. lia.
  - destruct (decide (1 ≤ Py.count text sub)) as [Hc|Hc]; [|lia].
    by apply H in Hc.
Qed.

(** The order of strings is a strict total order. *)
Lemma ascii_compare_refl (a : ascii) : Ascii.compare a a = Eq.
Proof. apply N.compare_refl. Qed.

Lemma string_compare_trans (a : string) :
  ∀ b c, String.compare a b = Lt → String.compare b c = Lt →
         String.compare a c = Lt.
Proof.
  induction a as [|x a IH]; intros [|y b] [|z c]; simpl; try done.
  unfold Ascii.compare.
  destruct (N.compare_spec (N_of_ascii x) (N_of_ascii y)) as [Hxy|Hxy|Hxy];
    destruct (N.compare_spec (N_of_ascii y) (N_of_ascii z)) as [Hyz|Hyz|Hyz];
    destruct (N.compare_spec (N_of_ascii x) (N_of_ascii z)) as [Hxz|Hxz|Hxz];
    try done; try lia.
  apply IH.
Qed.

Lemma str_ltb_trans (a b c : string) :
  Py.str_ltb a b = true → Py.str_ltb b c = true → Py.str_ltb a c = true.
Proof.
  unfold Py.str_ltb, String.ltb. intros H1 H2.
  destruct (String.compare a b) eqn:E1; try done.
  destruct (String.compare b c) eqn:E2; try done.
  by rewrite (string_compare_trans a b c).
Qed.

Lemma str_ltb_asym (a b : string) :
  Py.str_ltb a b = true → Py.str_ltb b a = false.
Proof.
  unfold Py.str_ltb, String.ltb. rewrite (String.compare_antisym a b).
  by destruct (String.compare b a).
Qed.

Lemma str_ltb_connex (a b : string) :
  Py.str_ltb a b = false → Py.str_ltb b a = false → a = b.
Proof.
  unfold Py.str_ltb, String.ltb. rewrite (String.compare_antisym a b).
  destruct (String.compare b a) eqn:E; try done.
  intros _ _. symmetry. by apply String.compare_eq_iff.
Qed.

(** So is the order of the sort keys. *)
Lemma key_ltb_asym (a b : Z * string) :
  Py.key_ltb a b = true → Py.key_ltb b a = false.
Proof.
  unfold Py.key_ltb. destruct a as [m s], b as [n t]; simpl.
  destruct (Z.eqb_spec m n) as [->|Hne].
  - rewrite Z.eqb_refl. apply str_ltb_asym.
  - destruct (Z.eqb_spec n m); [congruence|]. lia.
Qed.

Lemma key_ltb_trans (a b c : Z * string) :
  Py.key_ltb a b = true → Py.key_ltb b c = true → Py.key_ltb a c = true.
Proof.
  unfold Py.key_ltb. destruct a as [m s], b as [n t], c as [p u]; simpl.
  destruct (Z.eqb_spec m n) as [H1|H1], (Z.eqb_spec n p) as [H2|H2],
    (Z.eqb_spec m p) as [H3|H3]; rewrite ?Z.ltb_lt; try done; try lia.
  apply str_ltb_trans.
Qed.

Lemma key_ltb_connex (a b : Z * string) :
  Py.key_ltb a b = false → Py.key_ltb b a = false → a = b.
Proof.
  unfold Py.key_ltb. destruct a as [m s], b as [n t]; simpl.
  destruct (Z.eqb_spec m n) as [->|H1].
  - rewrite Z.eqb_refl. intros H2 H3. f_equal. by apply str_ltb_connex.
  - destruct (Z.eqb_spec n m); [congruence|]. lia.
Qed.

End StringFacts.

(** ** Facts about [sorted] *)

Section SortedFacts.
Context {A K : Type} (key : A → K) (ltb : K → K → bool).
Hypothesis ltb_asym : ∀ a b, ltb a b = true → ltb b a = false.
Hypothesis ltb_trans : ∀ a b c, ltb a b = true → ltb b c = true → ltb a c = true.
Hypothesis ltb_connex : ∀ a b, ltb a b = false → ltb b a = false → a = b.


Lemma key_le_trans (a b c : A) :
  Py.key_le key ltb a b → Py.key_le key ltb b c → Py.key_le key ltb a c.
Proof.
  unfold Py.key_le. intros Hab Hbc.
  destruct (ltb (key c) (key a)) eqn:Hca; [|done].
  destruct (ltb (key a) (key b)) eqn:Hab'.
  - by rewrite (ltb_trans _ _ _ Hca Hab') in Hbc.
  - rewrite <- (ltb_connex _ _ Hab Hab') in Hca. congruence.
Qed.

Lemma insert_by_perm (x : A) (l : list A) :
  Py.insert_by key ltb x l ≡ₚ x :: l.
Proof.
  induction l as [|y l IH]; simpl; [done|].
  destruct (ltb (key y) (key x)); [|done].
  by rewrite IH, Permutation_swap.
Qed.

Lemma sorted_perm (l : list A) : Py.sorted key ltb l ≡ₚ l.
Proof.
  induction l as [|x l IH]; simpl; [done|].
  by rewrite insert_by_perm, IH.
Qed.

Lemma insert_by_sorted (x : A) (l : list A) :
  StronglySorted (Py.key_le key ltb) l →
  StronglySorted (Py.key_le key ltb) (Py.insert_by key ltb x l).
Proof.
  induction 1 as [|y l Hl IH Hy]; simpl.
  - repeat constructor.
  - destruct (ltb (key y) (key x)) eqn:Hyx.
    + constructor; [done|].
      rewrite insert_by_perm. constructor; [|done].
      by apply ltb_asym.
    + constructor; [by constructor|].
      constructor; [done|].
      eapply Forall_impl; [exact Hy|]. intros z Hz.
      by apply (key_le_trans x y z).
Qed.

Lemma sorted_sorted (l : list A) :
  StronglySorted (Py.key_le key ltb) (Py.sorted key ltb l).
Proof.
  induction l as [|x l IH]; simpl; [constructor|]. by apply insert_by_sorted.
Qed.

Lemma StronglySorted_lookup (R : A → A → Prop) (l : list A) :
  StronglySorted R l →
  ∀ i j a b, (i < j)%nat → l !! i = Some a → l !! j = Some b → R a b.
Proof.
  induction 1 as [|x l Hl IH Hx]; intros i j a b Hij Hi Hj; [done|].
  destruct j as [|j]; [lia|]. simpl in Hj.
  destruct i as [|i]; simpl in Hi.
  - injection Hi as ->.
    eapply Forall_forall in Hx; [exact Hx|]. by eapply list_elem_of_lookup_2.
  - apply (IH i j); [lia|done..].
Qed.

(** With pairwise different keys, the order of the result is strict. *)
Lemma sorted_strict (l : list A) :
  NoDup (key <$> l) →
  ∀ i j a b, (i < j)%nat →
    Py.sorted key ltb l !! i = Some a → Py.sorted key ltb l !! j = Some b →
    Py.key_lt key ltb a b.
Proof.
  intros Hnd i j a b Hij Hi Hj. unfold Py.key_lt.
  pose proof (StronglySorted_lookup _ _ (sorted_sorted l) i j a b Hij Hi Hj)
    as Hle.
  destruct (ltb (key a) (key b)) eqn:Hab; [done|]. exfalso.
  pose proof (ltb_connex _ _ Hab Hle) as Heq.
  assert (NoDup (key <$> Py.sorted key ltb l)) as Hnd'.
  { by rewrite sorted_perm. }
  assert (i = j); [|lia].
  eapply NoDup_lookup; [exact Hnd'|..].
  - by rewrite list_lookup_fmap, Hi.
  - by rewrite list_lookup_fmap, Hj, Heq.
Qed.

(** Two strictly ordered lists with the same elements are the same list. *)
Lemma strict_sorted_unique (l1 l2 : list A) :
  StronglySorted (Py.key_lt key ltb) l1 →
  StronglySorted (Py.key_lt key ltb) l2 →
  l1 ≡ₚ l2 → l1 = l2.
Proof.
  intros H1. revert l2.
  induction H1 as [|x l1 Hl1 IH Hx]; intros l2 H2 Hp.
  - by apply Permutation_nil_l in Hp.
  - destruct H2 as [|y l2 Hl2 Hy].
    { by apply Permutation_nil_r in Hp. }
    assert (x = y) as ->.
    { assert (x ∈ y :: l2) as Hxin by (rewrite <- Hp; left).
      assert (y ∈ x :: l1) as Hyin by (rewrite Hp; left).
      apply elem_of_cons in Hxin as [->|Hxin]; [done|].
      apply elem_of_cons in Hyin as [->|Hyin]; [done|].
      eapply Forall_forall in Hx; [|exact Hyin].
      eapply Forall_forall in Hy; [|exact Hxin].
      unfold Py.key_lt in Hx, Hy. apply ltb_asym in Hx. congruence. }
    f_equal. apply IH; [done|]. by eapply Permutation_cons_inv.
Qed.

Lemma sorted_strongly_strict (l : list A) :
  NoDup (key <$> l) → StronglySorted (Py.key_lt key ltb) (Py.sorted key ltb l).
Proof.
  intros Hnd. pose proof (sorted_strict l Hnd) as Hs.
  induction (Py.sorted key ltb l) as [|x l' IH]; constructor.
  - apply IH. intros i j a b Hij Hi Hj. by apply (Hs (S i) (S j)); [lia|..].
  - apply Forall_forall. intros z Hz.
    apply list_elem_of_lookup in Hz as [j Hj].
    by apply (Hs 0%nat (S j)); [lia|..].
Qed.

(** The result of [sorted] does not depend on the order its input comes
    in, as long as the keys are pairwise different: any enumeration of the
    items of a [dict] gives the same report. *)
Lemma sorted_order_irrelevant (l l' : list A) :
  NoDup (key <$> l) → l ≡ₚ l' →
  Py.sorted key ltb l = Py.sorted key ltb l'.
Proof.
  intros Hnd Hp. apply strict_sorted_unique.
  - by apply sorted_strongly_strict.
  - apply sorted_strongly_strict. by rewrite <- Hp.
  - by rewrite !sorted_perm.
Qed.

End SortedFacts.

(** ** Facts about the skill counter *)

Section CounterFacts.
Context (text : string).

Lemma count_skill_other (m : gmap string Z) (s skill : string) :
  s ≠ skill → count_skill text m s !! skill = m !! skill.
Proof.
  intros Hne. unfold count_skill.
  destruct (Py.contains (Py.lower s) text); [|done].
  by rewrite lookup_insert_ne.
Qed.

Lemma listings_cons_eq (skill : string) (skills : list string) :
  listings skill (skill :: skills) = S (listings skill skills).
Proof. unfold listings. by rewrite filter_cons_True. Qed.

Lemma listings_cons_ne (s skill : string) (skills : list string) :
  s ≠ skill → listings skill (s :: skills) = listings skill skills.
Proof. intros. unfold listings. by rewrite filter_cons_False. Qed.

Lemma listings_app (skill : string) (l1 l2 : list string) :
  listings skill (l1 ++ l2) = (listings skill l1 + listings skill l2)%nat.
Proof. unfold listings. by rewrite filter_app, length_app. Qed.

Lemma listings_zero (skill : string) (skills : list string) :
  listings skill skills = 0%nat ↔ skill ∉ skills.
Proof.
  induction skills as [|s skills IH].
  - split; [intros _; apply not_elem_of_nil | done].
  - rewrite not_elem_of_cons. destruct (decide (s = skill)) as [->|Hne].
    + rewrite listings_cons_eq. split; [done | by intros [? _]].
    + rewrite listings_cons_ne by done. rewrite IH.
      split; [by intros ? | by intros [_ ?]].
Qed.

(** A skill that is not in the text is never touched. *)
Lemma count_skills_absent (skills : list string) :
  ∀ (m : gmap string Z) skill,
    Py.contains (Py.lower skill) text = false →
    foldl (count_skill text) m skills !! skill = m !! skill.
Proof.
  induction skills as [|s skills IH]; intros m skill Hc; simpl; [done|].
  rewrite IH by done. destruct (decide (s = skill)) as [->|Hne].
  - unfold count_skill. by rewrite Hc.
  - by apply count_skill_other.
Qed.

(** A skill that is in the text gains [text.count] once for every time
    the list names it. *)
Lemma count_skills_present (skills : list string) :
  ∀ (m : gmap string Z) skill,
    Py.contains (Py.lower skill) text = true →
    foldl (count_skill text) m skills !! skill =
      match listings skill skills with
      | O => m !! skill
      | S _ => Some (default 0 (m !! skill)
                     + Z.of_nat (listings skill skills)
                       * Py.count text (Py.lower skill))
      end.
Proof.
  induction skills as [|s skills IH]; intros m skill Hc; simpl; [done|].
  rewrite IH by done. destruct (decide (s = skill)) as [->|Hne].
  - rewrite listings_cons_eq. unfold count_skill. rewrite Hc.
    rewrite lookup_insert_eq. simpl.
    destruct (listings skill skills) as [|n]; f_equal; lia.
  - rewrite listings_cons_ne by done. by rewrite count_skill_other.
Qed.

Lemma count_categories_flat (skills_db : taxonomy) :
  ∀ m : gmap string Z,
    foldl (count_category text) m skills_db =
    foldl (count_skill text) m (all_skills skills_db).
Proof.
  induction skills_db as [|[category skills] db IH]; intros m; [done|].
  unfold all_skills. simpl. rewrite foldl_app. apply IH.
Qed.

Lemma analyze_skills_flat (skills_db : taxonomy) :
  analyze_skills skills_db text =
  foldl (count_skill text) ∅ (all_skills skills_db).
Proof. apply count_categories_flat. Qed.

(** The value [analyze_skills] leaves under every name. *)
Lemma analyze_skills_lookup (skills_db : taxonomy) (skill : string) :
  analyze_skills skills_db text !! skill =
    if Py.contains (Py.lower skill) text then
      match listings skill (all_skills skills_db) with
      | O => None
      | S _ => Some (Z.of_nat (listings skill (all_skills skills_db))
                     * Py.count text (Py.lower skill))
      end
    else None.
Proof.
  rewrite analyze_skills_flat.
  destruct (Py.contains (Py.lower skill) text) eqn:Hc.
  - rewrite count_skills_present by done. rewrite lookup_empty. simpl.
    destruct (listings skill (all_skills skills_db)); [done|]. f_equal; lia.
  - by rewrite count_skills_absent.
Qed.

(** Every count it leaves is an occurrence count of at least 1. *)
Lemma analyze_skills_positive (skills_db : taxonomy) (skill : string) (cnt : Z) :
  analyze_skills skills_db text !! skill = Some cnt → 1 ≤ cnt.
Proof.
  rewrite analyze_skills_lookup.
  destruct (Py.contains (Py.lower skill) text) eqn:Hc; [|done].
  apply contains_count in Hc.
  destruct (listings skill (all_skills skills_db)) as [|n]; [done|].
  intros [= <-]. nia.
Qed.

(** When no category repeats a name, the listings of the name are the
    categories that hold it. *)
Lemma listings_categories (skills_db : taxonomy) (skill : string) :
  (∀ entry, entry ∈ skills_db → (listings skill entry.2 ≤ 1)%nat) →
  listings skill (all_skills skills_db) = categories_containing skills_db skill.
Proof.
  induction skills_db as [|[category skills] db IH]; intros Hone; [done|].
  change (all_skills ((category, skills) :: db))
    with (skills ++ all_skills db).
  rewrite listings_app, IH.
  2:{ intros entry Hin. apply Hone. by right. }
  assert (listings skill skills ≤ 1)%nat as Hle.
  { apply (Hone (category, skills)). by left. }
  unfold categories_containing.
  destruct (decide (skill ∈ skills)) as [Hin|Hnin].
  - rewrite filter_cons_True by done. simpl.
    assert (listings skill skills ≠ 0%nat) by (by rewrite listings_zero; intros ?).
    lia.
  - rewrite filter_cons_False by done.
    apply listings_zero in Hnin. lia.
Qed.

Lemma all_skills_app (db1 db2 : taxonomy) :
  all_skills (db1 ++ db2) = all_skills db1 ++ all_skills db2.
Proof. unfold all_skills. by rewrite fmap_app, concat_app. Qed.

Lemma listings_all_skills_zero (skills_db : taxonomy) (skill : string) :
  (∀ entry, entry ∈ skills_db → skill ∉ entry.2) →
  listings skill (all_skills skills_db) = 0%nat.
Proof.
  induction skills_db as [|[category skills] db IH]; intros Hno; [done|].
  change (all_skills ((category, skills) :: db))
    with (skills ++ all_skills db).
  rewrite listings_app, IH.
  2:{ intros entry Hin. apply Hno. by right. }
  assert (listings skill skills = 0%nat) as ->; [|done].
  apply listings_zero, (Hno (category, skills)). by left.
Qed.

Lemma listings_pos (skill : string) (skills : list string) :
  skill ∈ skills → (0 < listings skill skills)%nat.
Proof.
  intros Hin. destruct (listings skill skills) eqn:Hl; [|lia].
  by apply listings_zero in Hl.
Qed.

End CounterFacts.

(** Closes a decidable goal about concrete data by evaluating its decision
    procedure. *)
Ltac by_computation :=
  refine (bool_decide_unpack _ _); vm_compute; exact I.

(** ** The skill counter *)

(** C3: whatever the taxonomy and the text, a skill that is a key of the
    counts returned by [analyze_skills] has a count of at least 1, and a
    skill whose lower-cased name occurs 0 times in the text is not a key:
    the mapping holds no zero-valued entry. *)
Theorem analyze_skills_no_zero (skills_db : taxonomy) (text skill : string) :
  (∀ cnt, analyze_skills skills_db text !! skill = Some cnt → 1 ≤ cnt) ∧
  (Py.count text (Py.lower skill) = 0 →
   analyze_skills skills_db text !! skill = None).
Proof.
  split.
  - intros cnt. apply analyze_skills_positive.
  - intros H0. apply not_contains_count in H0.
    by rewrite analyze_skills_lookup, H0.
Qed.

Lemma analyze_skills_no_zero_witness :
  1 ≤ 2 ∧ analyze_skills DEFAULT_SKILLS "sql and more sql" !! "Java" = None.
Proof.
  split.
  - apply (proj1 (analyze_skills_no_zero
                    [("Data", ["SQL"; "Excel"])] "sql and more sql" "SQL") 2).
    vm_compute. reflexivity.
  - apply (proj2 (analyze_skills_no_zero
                    DEFAULT_SKILLS "sql and more sql" "Java")).
    vm_compute. reflexivity.
Defined.

(** C1, as the code has it: when a skill that occurs in the text is listed
    by several categories, its one entry is accumulated.  After the last
    category that lists it, the value is the value the earlier categories
    left (at least 1 when one of them lists the skill) plus the substring
    count once for each time this category lists it: the counter adds with
    [+=], it does not overwrite. *)
Theorem analyze_skills_last_category_adds
    (db1 : taxonomy) (category : string) (skills : list string)
    (db2 : taxonomy) (text skill : string) :
  skill ∈ skills →
  (∀ entry, entry ∈ db2 → skill ∉ entry.2) →
  Py.contains (Py.lower skill) text = true →
  analyze_skills (db1 ++ (category, skills) :: db2) text !! skill =
    Some (default 0 (analyze_skills db1 text !! skill)
          + Z.of_nat (listings skill skills) * Py.count text (Py.lower skill))
  ∧ (skill ∈ all_skills db1 →
     1 ≤ default 0 (analyze_skills db1 text !! skill)).
Proof.
  intros Hin Hlast Hc. split.
  - rewrite !analyze_skills_flat, all_skills_app.
    change (all_skills ((category, skills) :: db2))
      with (skills ++ all_skills db2).
    rewrite !foldl_app.
    rewrite (count_skills_present text (all_skills db2)) by done.
    rewrite listings_all_skills_zero by done.
    rewrite (count_skills_present text skills) by done.
    pose proof (listings_pos skill skills Hin).
    by destruct (listings skill skills); [lia|].
  - intros Hin1. rewrite analyze_skills_lookup, Hc.
    pose proof (listings_pos skill _ Hin1).
    apply contains_count in Hc.
    destruct (listings skill (all_skills db1)); [lia|]. simpl. nia.
Qed.

Lemma analyze_skills_last_category_adds_witness :
  analyze_skills DEFAULT_SKILLS "mysql" !! "SQL" = Some (1 + 1 * 1).
Proof.
  refine (proj1 (analyze_skills_last_category_adds
                   [("Programming",
                     ["Python"; "Java"; "C++"; "JavaScript"; "SQL"; "R"; "Go"])]
                   "Data"
                   ["SQL"; "NoSQL"; "Spark"; "Pandas"; "Tableau"; "PowerBI"; "Excel"]
                   [("ML/AI", ["Machine Learning"; "Deep Learning"; "TensorFlow";
                               "PyTorch"; "NLP"]);
                    ("DevOps", ["Docker"; "Kubernetes"; "AWS"; "Azure"; "CI/CD";
                                "Terraform"]);
                    ("Soft Skills", ["Leadership"; "Communication"; "Teamwork";
                                     "Problem Solving"])]
                   "mysql" "SQL" _ _ _)).
  - by_computation.
  - apply Forall_forall. by_computation.
  - vm_compute. reflexivity.
Defined.

(** C1 as the specification states it fails: with the built-in taxonomy,
    which lists "SQL" under "Programming" and under "Data", the text
    "mysql" holds "sql" once, and the entry of "SQL" is 2, not the count 1
    that the last category listing it computes. *)
Lemma analyze_skills_not_last_write_wins :
  Py.count "mysql" (Py.lower "SQL") = 1 ∧
  analyze_skills DEFAULT_SKILLS "mysql" !! "SQL" = Some 2 ∧
  analyze_skills DEFAULT_SKILLS "mysql" !! "SQL"
    ≠ Some (Py.count "mysql" (Py.lower "SQL")).
Proof. vm_compute. repeat split. discriminate. Qed.


(** C9, as the code has it: a skill whose lower-cased name occurs in the
    text gets the substring count once for every time the taxonomy lists
    the name, over all the lists of all the categories.  When no category
    lists the name twice, that is once per category that holds it.  With
    the built-in taxonomy, which lists "SQL" under "Programming" and under
    "Data", any text that holds "sql" once gives "SQL" the count 2. *)
Theorem analyze_skills_accumulates (skills_db : taxonomy) (text skill : string) :
  Py.contains (Py.lower skill) text = true →
  skill ∈ all_skills skills_db →
  analyze_skills skills_db text !! skill =
    Some (Z.of_nat (listings skill (all_skills skills_db))
          * Py.count text (Py.lower skill))
  ∧ ((∀ entry, entry ∈ skills_db → (listings skill entry.2 ≤ 1)%nat) →
     analyze_skills skills_db text !! skill =
       Some (Z.of_nat (categories_containing skills_db skill)
             * Py.count text (Py.lower skill)))
  ∧ (skills_db = DEFAULT_SKILLS → skill = "SQL" → Py.count text "sql" = 1 →
     analyze_skills DEFAULT_SKILLS text !! "SQL" = Some 2).
Proof.
  intros Hc Hin.
  assert (analyze_skills skills_db text !! skill =
          Some (Z.of_nat (listings skill (all_skills skills_db))
                * Py.count text (Py.lower skill))) as Hsum.
  { rewrite analyze_skills_lookup, Hc.
    pose proof (listings_pos skill _ Hin).
    by destruct (listings skill (all_skills skills_db)); [lia|]. }
  split; [done|]. split.
  - intros Hone. by rewrite <- listings_categories.
  - intros -> -> Hcount. rewrite Hsum.
    change (Py.lower "SQL") with "sql". rewrite Hcount.
    by vm_compute.
Qed.

Lemma analyze_skills_accumulates_witness :
  analyze_skills DEFAULT_SKILLS "sql" !! "SQL" = Some 2.
Proof.
  refine (proj2 (proj2 (analyze_skills_accumulates DEFAULT_SKILLS "sql" "SQL"
                          _ _)) _ _ _).
  - vm_compute. reflexivity.
  - by_computation.
  - reflexivity.
  - reflexivity.
  - vm_compute. reflexivity.
Defined.

(** C9 as stated fails when one category lists a name twice: the name is
    in one category, the text holds it once, and its count is 2. *)
Lemma analyze_skills_counts_listings_not_categories :
  categories_containing [("Programming", ["SQL"; "SQL"])] "SQL" = 1%nat ∧
  Py.count "sql" (Py.lower "SQL") = 1 ∧
  analyze_skills [("Programming", ["SQL"; "SQL"])] "sql" !! "SQL" = Some 2 ∧
  analyze_skills [("Programming", ["SQL"; "SQL"])] "sql" !! "SQL"
    ≠ Some (Z.of_nat (categories_containing
                        [("Programming", ["SQL"; "SQL"])] "SQL")
            * Py.count "sql" (Py.lower "SQL")).
Proof. vm_compute. repeat split. discriminate. Qed.

(** C10, as the code has it: whatever the text, a skill whose name is the
    empty string is a key of the counts as soon as the taxonomy lists it,
    with [len(text) + 1] once for every time it is listed (once per
    category that holds it when no category lists it twice); so the counts
    are never empty then, not even for the empty text. *)
Theorem analyze_skills_empty_name (skills_db : taxonomy) (text : string) :
  "" ∈ all_skills skills_db →
  analyze_skills skills_db text !! "" =
    Some (Z.of_nat (listings "" (all_skills skills_db)) * (Py.len text + 1))
  ∧ ((∀ entry, entry ∈ skills_db → (listings "" entry.2 ≤ 1)%nat) →
     analyze_skills skills_db text !! "" =
       Some (Z.of_nat (categories_containing skills_db "")
             * (Py.len text + 1)))
  ∧ analyze_skills skills_db text ≠ ∅
  ∧ analyze_skills skills_db "" ≠ ∅.
Proof.
  intros Hin.
  assert (∀ t, analyze_skills skills_db t !! "" =
               Some (Z.of_nat (listings "" (all_skills skills_db))
                     * (Py.len t + 1))) as Hsum.
  { intros t. rewrite analyze_skills_lookup. simpl. rewrite contains_empty.
    pose proof (listings_pos "" _ Hin).
    by destruct (listings "" (all_skills skills_db)); [lia|]. }
  split; [done|]. split; [|split].
  - intros Hone. by rewrite <- listings_categories.
  - intros Hempty. specialize (Hsum text).
    by rewrite Hempty, lookup_empty in Hsum.
  - intros Hempty. specialize (Hsum "").
    by rewrite Hempty, lookup_empty in Hsum.
Qed.

Lemma analyze_skills_empty_name_witness :
  analyze_skills [("Tools", ["Git"; ""])] "" !! "" = Some (1 * (0 + 1)).
Proof.
  refine (proj1 (analyze_skills_empty_name [("Tools", ["Git"; ""])] "" _)).
  by_computation.
Defined.

(** C10 as stated fails when one category lists the empty name twice: one
    category holds it, the text has 2 characters, and the count is 6. *)
Lemma analyze_skills_empty_name_listed_twice :
  categories_containing [("Tools", [""; ""])] "" = 1%nat ∧
  Py.len "ab" = 2 ∧
  analyze_skills [("Tools", [""; ""])] "ab" !! "" = Some 6 ∧
  analyze_skills [("Tools", [""; ""])] "ab" !! ""
    ≠ Some (Z.of_nat (categories_containing [("Tools", [""; ""])] "")
            * (Py.len "ab" + 1)).
Proof. vm_compute. repeat split. discriminate. Qed.

(** C2: for the text "i used python and python for data analysis with sql"
    and the taxonomy with the one category "Programming" listing "Python"
    and "SQL", the counts are exactly Python 2 and SQL 1, and the report
    gives the line of Python before the line of SQL. *)
Theorem example_python_sql :
  let skills_db := [("Programming", ["Python"; "SQL"])] in
  let text := "i used python and python for data analysis with sql" in
  let counts := analyze_skills skills_db text in
  counts = {[ "Python" := 2; "SQL" := 1 ]} ∧
  suggest_improvements skills_db counts = [] ∧
  report_lines counts (suggest_improvements skills_db counts) =
    [ report_header; "• Python: 2 mentions"; "• SQL: 1 mention";
      all_good_line ] ∧
  generate_report counts (suggest_improvements skills_db counts) =
    report_header +:+ Py.nl +:+ "• Python: 2 mentions" +:+ Py.nl
      +:+ "• SQL: 1 mention" +:+ Py.nl +:+ all_good_line.
Proof. vm_compute. repeat split. Qed.


(** ** The report *)

Section ReportFacts.
Context (skill_counts : gmap string Z).

Lemma report_key_inj : Inj (=) (=) report_key.
Proof.
  intros [s m] [t n]. unfold report_key. simpl.
  intros [= Hneg ->]. f_equal. lia.
Qed.

Lemma sorted_items_perm : sorted_items skill_counts ≡ₚ map_to_list skill_counts.
Proof. apply sorted_perm. Qed.

Lemma elem_of_sorted_items (skill : string) (cnt : Z) :
  (skill, cnt) ∈ sorted_items skill_counts ↔ skill_counts !! skill = Some cnt.
Proof. by rewrite sorted_items_perm, elem_of_map_to_list. Qed.

(** The shape of the report when some skill was counted. *)
Lemma report_lines_nonempty (suggestions : list string) :
  skill_counts ≠ ∅ →
  report_lines skill_counts suggestions =
    report_header :: (skill_line <$> sorted_items skill_counts)
      ++ suggestion_lines suggestions.
Proof. intros Hne. unfold report_lines. by rewrite decide_False. Qed.

(** The shape of the report when none was. *)
Lemma report_lines_empty (suggestions : list string) :
  skill_counts = ∅ →
  report_lines skill_counts suggestions =
    report_header :: no_skills_line :: suggestion_lines suggestions.
Proof. intros He. unfold report_lines. by rewrite decide_True. Qed.

(** Rows of the report stand in the strict order of their keys. *)
Lemma sorted_items_strict (i j : nat) (a b : string * Z) :
  (i < j)%nat →
  sorted_items skill_counts !! i = Some a →
  sorted_items skill_counts !! j = Some b →
  Py.key_ltb (report_key a) (report_key b) = true.
Proof.
  apply (sorted_strict report_key Py.key_ltb
           key_ltb_asym key_ltb_trans key_ltb_connex).
  apply (@NoDup_fmap_2 _ _ report_key report_key_inj), NoDup_map_to_list.
Qed.

(** Any enumeration of the items of the [dict] sorts to the same rows, so
    the order in which the items are read does not show in the report. *)
Lemma sorted_items_any_order (items : list (string * Z)) :
  items ≡ₚ map_to_list skill_counts →
  Py.sorted report_key Py.key_ltb items = sorted_items skill_counts.
Proof.
  intros Hp.
  apply (sorted_order_irrelevant report_key Py.key_ltb
           key_ltb_asym key_ltb_trans key_ltb_connex); [|done].
  rewrite Hp.
  apply (@NoDup_fmap_2 _ _ report_key report_key_inj), NoDup_map_to_list.
Qed.

End ReportFacts.

Lemma skill_line_singular (skill : string) :
  skill_line (skill, 1) = "• " +:+ skill +:+ ": 1 mention".
Proof. reflexivity. Qed.

Lemma skill_line_plural (skill : string) (cnt : Z) :
  1 < cnt →
  skill_line (skill, cnt) =
    "• " +:+ skill +:+ ": " +:+ Py.str cnt +:+ " mentions".
Proof.
  intros Hcnt. unfold skill_line. simpl.
  by rewrite (proj2 (Z.ltb_lt 1 cnt) Hcnt).
Qed.

(** Below 2 the line has no plural: that is also what a count of 0 or
    less would get, which the counter never leaves. *)
Lemma skill_line_not_plural (skill : string) (cnt : Z) :
  cnt ≤ 1 →
  skill_line (skill, cnt) =
    "• " +:+ skill +:+ ": " +:+ Py.str cnt +:+ " mention".
Proof.
  intros Hcnt. unfold skill_line. simpl.
  by rewrite (proj2 (Z.ltb_ge 1 cnt) Hcnt).
Qed.

(** In every report the program prints, a counted skill has its line, with
    "mention" for the count 1 and "mentions" for any other. *)
Lemma analyze_skills_report_mentions (skills_db : taxonomy)
    (text : string) (suggestions : list string) (skill : string) (cnt : Z) :
  analyze_skills skills_db text !! skill = Some cnt →
  skill_line (skill, cnt)
    ∈ report_lines (analyze_skills skills_db text) suggestions ∧
  skill_line (skill, cnt) =
    "• " +:+ skill +:+ ": " +:+ Py.str cnt
      +:+ (if decide (cnt = 1) then " mention" else " mentions").
Proof.
  intros Hin. pose proof (analyze_skills_positive _ _ _ _ Hin) as Hpos. split.
  - rewrite report_lines_nonempty.
    2:{ intros He. by rewrite He, lookup_empty in Hin. }
    right. apply elem_of_app. left.
    apply list_elem_of_fmap_2. by apply elem_of_sorted_items.
  - destruct (decide (cnt = 1)) as [->|Hne].
    + apply skill_line_singular.
    + apply skill_line_plural. lia.
Qed.

(** C4: in the report of a non-empty mapping, the lines after the header
    are the lines of the entries of the mapping, and of any two of them
    the earlier one has the greater count, or the same count and the
    smaller name in the order of strings. *)
Theorem report_lines_order
    (skill_counts : gmap string Z) (suggestions : list string) :
  skill_counts ≠ ∅ →
  (∀ skill cnt,
     (skill, cnt) ∈ sorted_items skill_counts ↔
     skill_counts !! skill = Some cnt) ∧
  ∀ i j A cntA B cntB,
    (i < j)%nat →
    sorted_items skill_counts !! i = Some (A, cntA) →
    sorted_items skill_counts !! j = Some (B, cntB) →
    report_lines skill_counts suggestions !! S i = Some (skill_line (A, cntA)) ∧
    report_lines skill_counts suggestions !! S j = Some (skill_line (B, cntB)) ∧
    (cntB < cntA ∨ (cntA = cntB ∧ Py.str_ltb A B = true)).
Proof.
  intros Hne. split; [apply elem_of_sorted_items|].
  intros i j A cntA B cntB Hij Hi Hj.
  rewrite report_lines_nonempty by done. simpl.
  rewrite !lookup_app_l by (rewrite length_fmap; by eapply lookup_lt_Some).
  rewrite !list_lookup_fmap, Hi, Hj. do 2 (split; [done|]).
  pose proof (sorted_items_strict skill_counts i j _ _ Hij Hi Hj) as Hlt.
  unfold Py.key_ltb, report_key in Hlt. simpl in Hlt.
  destruct (Z.eqb_spec (- cntA) (- cntB)) as [Heq|Heq].
  - right. split; [lia|done].
  - left. apply Z.ltb_lt in Hlt. lia.
Qed.

Lemma report_lines_order_witness :
  report_lines {[ "Go" := 3; "AWS" := 3; "SQL" := 5 ]} [] !! 2%nat
    = Some (skill_line ("AWS", 3)) ∧
  report_lines {[ "Go" := 3; "AWS" := 3; "SQL" := 5 ]} [] !! 3%nat
    = Some (skill_line ("Go", 3)) ∧
  (3 < 3 ∨ (3 = 3 ∧ Py.str_ltb "AWS" "Go" = true)).
Proof.
  refine (proj2 (report_lines_order {[ "Go" := 3; "AWS" := 3; "SQL" := 5 ]} [] _)
            1%nat 2%nat "AWS" 3 "Go" 3 _ _ _).
  - by_computation.
  - lia.
  - vm_compute. reflexivity.
  - vm_compute. reflexivity.
Defined.

(** C5: in the report of a mapping whose counts are occurrence counts (at
    least 1, as the counter leaves them), every entry has its line, which
    reads "1 mention" when the count is exactly 1 and "<n> mentions" for
    any other count. *)
Theorem report_lines_mentions
    (skill_counts : gmap string Z) (suggestions : list string)
    (skill : string) (cnt : Z) :
  skill_counts !! skill = Some cnt →
  1 ≤ cnt →
  skill_line (skill, cnt) ∈ report_lines skill_counts suggestions ∧
  (cnt = 1 → skill_line (skill, cnt) = "• " +:+ skill +:+ ": 1 mention") ∧
  (cnt ≠ 1 →
   skill_line (skill, cnt) =
     "• " +:+ skill +:+ ": " +:+ Py.str cnt +:+ " mentions").
Proof.
  intros Hin Hpos. split; [|split].
  - rewrite report_lines_nonempty.
    2:{ intros ->. by rewrite lookup_empty in Hin. }
    right. apply elem_of_app. left.
    apply list_elem_of_fmap_2. by apply elem_of_sorted_items.
  - intros ->. apply skill_line_singular.
  - intros Hne. apply skill_line_plural. lia.
Qed.

Lemma report_lines_mentions_witness :
  skill_line ("SQL", 1) = "• SQL: 1 mention" ∧
  skill_line ("Python", 2) = "• Python: 2 mentions".
Proof.
  split.
  - refine (proj1 (proj2 (report_lines_mentions
                            {[ "Python" := 2; "SQL" := 1 ]} [] "SQL" 1 _ _)) _).
    + vm_compute. reflexivity.
    + lia.
    + reflexivity.
  - refine (proj2 (proj2 (report_lines_mentions
                            {[ "Python" := 2; "SQL" := 1 ]} [] "Python" 2 _ _)) _).
    + vm_compute. reflexivity.
    + lia.
    + lia.
Defined.


(** ** The suggestion engine *)

Section SuggestionFacts.
Context (skill_counts : gmap string Z).

Lemma filter_ext_in {A : Type} (P Q : A → Prop)
    `{∀ x, Decision (P x)} `{∀ x, Decision (Q x)} (l : list A) :
  (∀ x, x ∈ l → P x ↔ Q x) → filter P l = filter Q l.
Proof.
  induction l as [|x l IH]; intros Hext; [done|].
  assert (filter P l = filter Q l) as IH'.
  { apply IH. intros y Hy. apply Hext. by right. }
  assert (P x ↔ Q x) as Hx by (apply Hext; left).
  destruct (decide (P x)) as [HP|HP].
  - rewrite !filter_cons_True by tauto. by f_equal.
  - by rewrite !filter_cons_False by tauto.
Qed.

Lemma found_is_keys (skills : list string) :
  filter (λ s, has_key skill_counts s = true) skills =
  filter (λ s, is_Some (skill_counts !! s)) skills.
Proof.
  apply list_filter_iff. intros s. unfold has_key.
  by rewrite bool_decide_eq_true.
Qed.

Lemma missing_is_not_keys (skills : list string) :
  filter (λ s, in_list (filter (λ s, is_Some (skill_counts !! s)) skills) s
               = false) skills =
  filter (λ s, skill_counts !! s = None) skills.
Proof.
  apply filter_ext_in. intros s Hs. unfold in_list.
  rewrite bool_decide_eq_false, list_elem_of_filter, eq_None_not_Some.
  tauto.
Qed.

(** One turn of the loop appends what the specification gives for the
    category. *)
Lemma suggest_step_category (suggestions : list string)
    (entry : string * list string) :
  suggest_step skill_counts suggestions entry =
  suggestions ++ category_suggestion skill_counts entry.
Proof.
  destruct entry as [category skills].
  unfold suggest_step, category_suggestion. cbn [fst snd].
  rewrite found_is_keys.
  destruct (filter (λ s, is_Some (skill_counts !! s)) skills)
    as [|s0 found] eqn:Hfound.
  - by rewrite decide_True.
  - rewrite decide_False by done. rewrite <- Hfound, missing_is_not_keys.
    rewrite Hfound.
    destruct (Z.ltb_spec (Z.of_nat (length (s0 :: found))) 2) as [Hlt|Hge].
    + rewrite decide_True by lia. done.
    + rewrite decide_False by lia. by rewrite app_nil_r.
Qed.

Lemma suggest_loop (skills_db : taxonomy) :
  ∀ suggestions,
    foldl (suggest_step skill_counts) suggestions skills_db =
    suggestions ++ concat (category_suggestion skill_counts <$> skills_db).
Proof.
  induction skills_db as [|entry db IH]; intros suggestions; simpl.
  - by rewrite app_nil_r.
  - by rewrite IH, suggest_step_category, <- app_assoc.
Qed.

Lemma suggest_improvements_concat (skills_db : taxonomy) :
  suggest_improvements skills_db skill_counts =
  concat (category_suggestion skill_counts <$> skills_db).
Proof. apply suggest_loop. Qed.

End SuggestionFacts.

(** C6: the suggestions are, in the order of the taxonomy, what each
    category gives, nothing for a category that is passed over.  A category
    none of whose skills is a key of the counts gives one "missing" message
    with the category and its first three skills; a category with one skill
    that is a key, and no second one, gives one "few" message with the
    first two of its skills that are not keys; a category with two or more
    gives nothing. *)
Theorem suggest_improvements_per_category
    (skills_db : taxonomy) (skill_counts : gmap string Z) :
  suggest_improvements skills_db skill_counts =
    concat (category_suggestion skill_counts <$> skills_db) ∧
  ∀ category skills,
    let found := filter (λ s, is_Some (skill_counts !! s)) skills in
    (found = [] →
     category_suggestion skill_counts (category, skills) =
       [ "⚠️ Missing " +:+ category +:+ " skills. Consider adding "
           +:+ Py.join ", " (take 3 skills) +:+ "..." ]) ∧
    (found ≠ [] → (length found < 2)%nat →
     category_suggestion skill_counts (category, skills) =
       [ "ℹ️ Few " +:+ category +:+ " skills. Could add "
           +:+ Py.join ", "
                 (take 2 (filter (λ s, skill_counts !! s = None) skills)) ]) ∧
    ((2 ≤ length found)%nat →
     category_suggestion skill_counts (category, skills) = []).
Proof.
  split; [apply suggest_improvements_concat|].
  intros category skills found. unfold category_suggestion. cbn [fst snd].
  fold found. repeat split.
  - intros ->. by rewrite decide_True.
  - intros Hne Hlt. rewrite decide_False by done. by rewrite decide_True.
  - intros Hge. rewrite decide_False by (by destruct found; [simpl in Hge; lia|]).
    by rewrite decide_False by lia.
Qed.

Lemma suggest_improvements_per_category_witness :
  category_suggestion {[ "SQL" := 2 ]} ("DevOps", ["Docker"; "AWS"; "Azure"; "CI/CD"])
    = [ "⚠️ Missing DevOps skills. Consider adding Docker, AWS, Azure..." ] ∧
  category_suggestion {[ "SQL" := 2 ]} ("Data", ["SQL"; "NoSQL"; "Spark"; "Excel"])
    = [ "ℹ️ Few Data skills. Could add NoSQL, Spark" ] ∧
  category_suggestion {[ "SQL" := 2; "Go" := 1 ]} ("Programming", ["Go"; "SQL"; "R"])
    = [].
Proof.
  split; [|split].
  - refine (proj1 (proj2 (suggest_improvements_per_category [] {[ "SQL" := 2 ]})
                     "DevOps" ["Docker"; "AWS"; "Azure"; "CI/CD"]) _).
    vm_compute. reflexivity.
  - refine (proj1 (proj2 (proj2 (suggest_improvements_per_category
                                   [] {[ "SQL" := 2 ]})
                            "Data" ["SQL"; "NoSQL"; "Spark"; "Excel"])) _ _).
    + vm_compute. discriminate.
    + vm_compute. lia.
  - refine (proj2 (proj2 (proj2 (suggest_improvements_per_category
                                   [] {[ "SQL" := 2; "Go" := 1 ]})
                            "Programming" ["Go"; "SQL"; "R"])) _).
    vm_compute. lia.
Defined.


(** ** The empty text *)

Lemma analyze_skills_empty_text (skills_db : taxonomy) :
  (∀ entry, entry ∈ skills_db → "" ∉ entry.2) →
  analyze_skills skills_db "" = ∅.
Proof.
  intros Hnames. apply map_eq. intros skill.
  rewrite analyze_skills_lookup, lookup_empty.
  destruct (decide (skill = "")) as [->|Hne].
  - rewrite listings_all_skills_zero by done. by destruct (Py.contains _ _).
  - rewrite contains_in_empty; [done|]. intros He. by apply lower_empty in He.
Qed.

Lemma suggest_improvements_no_counts (skills_db : taxonomy) :
  suggest_improvements skills_db ∅ =
  (λ entry, missing_message entry.1 entry.2) <$> skills_db.
Proof.
  rewrite suggest_improvements_concat.
  induction skills_db as [|[category skills] db IH]; [done|].
  rewrite !fmap_cons. cbn [concat]. rewrite IH.
  assert (category_suggestion ∅ (category, skills)
          = [missing_message category skills]) as ->; [|done].
  unfold category_suggestion. cbn [fst snd]. rewrite decide_True; [done|].
  induction skills as [|s skills IHs]; [done|].
  rewrite filter_cons_False; [done|].
  rewrite lookup_empty. by intros [? ?].
Qed.

(** C8: for the empty text and a non-empty taxonomy none of whose skill
    names is empty, the counts are empty, the report states below its
    header that no skills were detected, and the suggestions are one
    "missing" message for every category, in the order of the taxonomy. *)
Theorem empty_text_report (skills_db : taxonomy) :
  skills_db ≠ [] →
  (∀ entry, entry ∈ skills_db → "" ∉ entry.2) →
  let counts := analyze_skills skills_db "" in
  let suggestions := suggest_improvements skills_db counts in
  counts = ∅ ∧
  suggestions
    = (λ entry,
         "⚠️ Missing " +:+ entry.1 +:+ " skills. Consider adding "
           +:+ Py.join ", " (take 3 entry.2) +:+ "...") <$> skills_db ∧
  length suggestions = length skills_db ∧
  report_lines counts suggestions =
    [ report_header; "No skills detected in resume."; suggestions_header ]
      ++ suggestions ∧
  generate_report counts suggestions =
    report_header +:+ Py.nl +:+ "No skills detected in resume." +:+ Py.nl
      +:+ Py.join Py.nl (suggestions_header :: suggestions).
Proof.
  intros Hdb Hnames counts suggestions.
  assert (counts = ∅) as Hcounts by by apply analyze_skills_empty_text.
  assert (suggestions =
            (λ entry, missing_message entry.1 entry.2) <$> skills_db) as Hsug.
  { unfold suggestions. rewrite Hcounts. apply suggest_improvements_no_counts. }
  assert (report_lines counts suggestions =
            [ report_header; no_skills_line; suggestions_header ]
              ++ suggestions) as Hlines.
  { rewrite report_lines_empty by done. rewrite Hsug.
    by destruct skills_db. }
  repeat split; try done.
  - by rewrite Hsug, length_fmap.
  - unfold generate_report. by rewrite Hlines.
Qed.

Lemma empty_text_report_witness :
  analyze_skills DEFAULT_SKILLS "" = ∅ ∧
  length (suggest_improvements DEFAULT_SKILLS (analyze_skills DEFAULT_SKILLS ""))
    = 5%nat.
Proof.
  assert (DEFAULT_SKILLS ≠ []) as Hdb by discriminate.
  assert (∀ entry, entry ∈ DEFAULT_SKILLS → "" ∉ entry.2) as Hnames.
  { apply Forall_forall. by_computation. }
  pose proof (empty_text_report DEFAULT_SKILLS Hdb Hnames) as (H1 & _ & H3 & _).
  split; [exact H1 | exact H3].
Defined.


(** ** The driver on a missing resume *)

Lemma extract_text_missing (w : world) (pdf_path : string) :
  path_exists w pdf_path = false →
  extract_text w pdf_path =
    ([PathExists pdf_path],
     inl (FileNotFoundError ("File not found: " +:+ pdf_path))).
Proof.
  intros Hmissing. unfold extract_text, os_path_exists, emit, mbind, io_bind.
  by rewrite Hmissing.
Qed.

(** The [try] block on a missing resume: it ends in an exception, before
    anything is printed or any document opened. *)
Lemma main_try_missing_resume (w : world) (args : arguments) :
  path_exists w (resume args) = false →
  ∃ events e,
    main_try w args = (events, inl e) ∧
    Forall prints_nothing events ∧
    Forall opens_no_pdf events ∧
    (e = FileNotFoundError ("File not found: " +:+ resume args) ∨
     ∃ path, json_file w path = inl e).
Proof.
  intros Hmissing. unfold main_try.
  rewrite (extract_text_missing w (resume args) Hmissing).
  unfold ResumeAnalyzer, load_skills_db, json_load, os_path_exists, emit,
    mbind, mret, io_bind, io_ret.
  destruct (skills args) as [[|c path]|]; cbn [app];
    repeat match goal with
      | |- context [json_file w ?p] =>
          let E := fresh "E" in destruct (json_file w p) as [?|[|??]] eqn:E
      | |- context [path_exists w SKILLS_DB_FILE] =>
          destruct (path_exists w SKILLS_DB_FILE)
      end;
    cbn [app];
    eexists _, _; (split; [reflexivity|]);
    (split; [repeat constructor|]);
    (split; [repeat constructor|]);
    first [ by left | right; by eexists ].
Qed.

(** C7: when the resume path does not exist, [extract_text] raises the
    not-found error after the one existence test, without opening the
    document; [main] then prints one line, the error message, and exits
    with status 1: no document is opened and no banner or report is
    printed.  The message is the not-found message unless loading the
    taxonomy already failed, in which case it is the message of that
    failure. *)
Theorem main_missing_resume (w : world) (args : arguments) :
  path_exists w (resume args) = false →
  extract_text w (resume args) =
    ([PathExists (resume args)],
     inl (FileNotFoundError ("File not found: " +:+ resume args))) ∧
  ∃ events msg,
    main w args = (events ++ [Print (Py.nl +:+ "❌ Error: " +:+ msg); Exit 1], 1) ∧
    Forall prints_nothing events ∧
    Forall opens_no_pdf events ∧
    (msg = "File not found: " +:+ resume args ∨
     ∃ path e, json_file w path = inl e ∧ msg = exception_str e).
Proof.
  intros Hmissing. split; [by apply extract_text_missing|].
  destruct (main_try_missing_resume w args Hmissing)
    as (events & e & Htry & Hprint & Hpdf & Hmsg).
  exists events, (exception_str e). unfold main. rewrite Htry.
  repeat split; try done.
  destruct Hmsg as [->|[path Hpath]]; [by left|].
  right. by exists path, e.
Qed.

Lemma main_missing_resume_witness :
  let w := {| path_exists := λ path, bool_decide (path = "skills.json");
              json_file := λ _, inr [("Data", ["SQL"; "Excel"])];
              pdf_pages := λ _, inr [] |} in
  let args := {| resume := "cv.pdf"; skills := Some "skills.json" |} in
  extract_text w "cv.pdf" =
    ([PathExists "cv.pdf"], inl (FileNotFoundError "File not found: cv.pdf")) ∧
  ∃ events msg,
    main w args = (events ++ [Print (Py.nl +:+ "❌ Error: " +:+ msg); Exit 1], 1) ∧
    Forall prints_nothing events ∧
    Forall opens_no_pdf events ∧
    (msg = "File not found: cv.pdf" ∨
     ∃ path e, json_file w path = inl e ∧ msg = exception_str e).
Proof.
  intros w args. apply (main_missing_resume w args). reflexivity.
Defined.

(** The run of that example: the taxonomy file is read, the resume is
    looked for, and the one line printed is the error. *)
Example main_missing_resume_run :
  main {| path_exists := λ path, bool_decide (path = "skills.json");
          json_file := λ _, inr [("Data", ["SQL"; "Excel"])];
          pdf_pages := λ _, inr [] |}
       {| resume := "cv.pdf"; skills := Some "skills.json" |}
  = ([ OpenJson "skills.json"; PathExists "cv.pdf";
       Print (Py.nl +:+ "❌ Error: File not found: cv.pdf"); Exit 1 ], 1).
Proof. reflexivity. Qed.


(** * Further properties of the program *)

(** ** More on the built-ins *)

Lemma app_String (c : ascii) (a b : string) :
  String c a +:+ b = String c (a +:+ b).
Proof. reflexivity. Qed.

Lemma app_empty_l (a : string) : "" +:+ a = a.
Proof. reflexivity. Qed.

Lemma app_empty_r (a : string) : a +:+ "" = a.
Proof. induction a as [|c a IH]; [done|]. by rewrite app_String, IH. Qed.

Lemma string_app_assoc (a b c : string) : (a +:+ b) +:+ c = a +:+ b +:+ c.
Proof. induction a as [|x a IH]; [done|]. by rewrite !app_String, IH. Qed.

Lemma length_app_string (a b : string) :
  String.length (a +:+ b) = (String.length a + String.length b)%nat.
Proof. induction a as [|x a IH]; [done|]. rewrite app_String. simpl. by rewrite IH. Qed.




Lemma length_lower (s : string) : String.length (Py.lower s) = String.length s.
Proof. induction s as [|c s IH]; [done|]. simpl. by rewrite IH. Qed.

(** [text.startswith(sub)] is [text = sub + rest]. *)
Lemma prefix_split (sub : string) :
  ∀ text, String.prefix sub text = true ↔ ∃ post, text = sub +:+ post.
Proof.
  induction sub as [|c sub IH]; intros text.
  - rewrite prefix_empty. split; [by exists text | done].
  - destruct text as [|d text].
    + split; [done | by intros [post ?]].
    + cbn [String.prefix]. destruct (ascii_dec c d) as [->|Hne].
      * rewrite IH. split; intros [post Hpost]; exists post.
        -- by rewrite app_String, Hpost.
        -- rewrite app_String in Hpost. by injection Hpost.
      * split; [done|]. intros [post Hpost].
        rewrite app_String in Hpost. by injection Hpost as -> _.
Qed.

(** [sub in text] is [text = before + sub + after]. *)
Lemma contains_split (sub : string) :
  ∀ text,
    Py.contains sub text = true ↔ ∃ pre post, text = pre +:+ sub +:+ post.
Proof.
  intros text. induction text as [|c text IH].
  - cbn [Py.contains]. rewrite orb_false_r, prefix_split. split.
    + intros [post Hpost]. by exists "", post.
    + intros [[|d pre] [post Hpost]]; [by exists post | done].
  - cbn [Py.contains]. rewrite orb_true_iff, prefix_split, IH. split.
    + intros [[post Hpost]|(pre & post & Hpost)].
      * by exists "", post.
      * exists (String c pre), post. by rewrite app_String, Hpost.
    + intros ([|d pre] & post & Hpost).
      * left. by exists post.
      * right. exists pre, post. rewrite app_String in Hpost.
        by injection Hpost.
Qed.

Lemma contains_trans (a b text : string) :
  Py.contains a b = true → Py.contains b text = true →
  Py.contains a text = true.
Proof.
  rewrite !contains_split.
  intros (p1 & q1 & ->) (p2 & q2 & ->).
  exists (p2 +:+ p1), (q1 +:+ q2). by rewrite !string_app_assoc.
Qed.

Lemma prefix_length (sub : string) :
  ∀ text, String.prefix sub text = true →
          (String.length sub ≤ String.length text)%nat.
Proof.
  intros text [post ->]%prefix_split. rewrite length_app_string. lia.
Qed.

(** Matches do not overlap: together they fit in the part of the text that
    is still to be scanned. *)
Lemma count_scan_bound (sub : string) (text : string) :
  sub ≠ "" →
  ∀ skip,
    Py.len sub * Py.count_scan sub skip text
      ≤ Z.max 0 (Py.len text - Z.of_nat skip).
Proof.
  intros Hsub. unfold Py.len.
  assert (0 < String.length sub)%nat as Hlen by (destruct sub; [done|simpl; lia]).
  induction text as [|c text IH]; intros skip.
  - simpl. lia.
  - cbn [Py.count_scan String.length]. destruct skip as [|k].
    + destruct (String.prefix sub (String c text)) eqn:Hp.
      * apply prefix_length in Hp. cbn [String.length] in Hp.
        specialize (IH (String.length sub - 1)%nat). lia.
      * specialize (IH 0%nat). lia.
    + specialize (IH k). lia.
Qed.

Lemma count_bound (sub text : string) :
  sub ≠ "" → Py.len sub * Py.count text sub ≤ Py.len text.
Proof.
  intros Hsub. pose proof (count_scan_bound sub text Hsub 0) as Hb.
  destruct sub; [done|]. unfold Py.count. unfold Py.len in *. lia.
Qed.

(** ** More on the skill counter *)

(** The keys of the counts are the listed skills whose lower-cased name is
    somewhere in the text, no other name and no fewer. *)
Theorem analyze_skills_keys (skills_db : taxonomy) (text skill : string) :
  is_Some (analyze_skills skills_db text !! skill) ↔
  skill ∈ all_skills skills_db ∧ Py.contains (Py.lower skill) text = true.
Proof.
  rewrite analyze_skills_lookup.
  destruct (Py.contains (Py.lower skill) text).
  - destruct (listings skill (all_skills skills_db)) eqn:Hl.
    + apply listings_zero in Hl.
      split; [intros [? ?]; discriminate | intros [Hin _]; destruct (Hl Hin)].
    + split; [|by eexists]. intros _. split; [|done].
      destruct (decide (skill ∈ all_skills skills_db)) as [|Hn]; [done|].
      apply listings_zero in Hn. congruence.
  - split; [by intros [? ?] | by intros [_ ?]].
Qed.

(** The counts depend on which names the taxonomy lists and how often, not
    on the order of the categories, on the order of the skills within
    them, or on how the skills are grouped into categories. *)
Theorem analyze_skills_order_irrelevant
    (db1 db2 : taxonomy) (text : string) :
  all_skills db1 ≡ₚ all_skills db2 →
  analyze_skills db1 text = analyze_skills db2 text.
Proof.
  intros Hp. apply map_eq. intros skill.
  rewrite !analyze_skills_lookup.
  assert (listings skill (all_skills db1) = listings skill (all_skills db2))
    as Hsame by (unfold listings; by rewrite Hp).
  by rewrite Hsame.
Qed.

Lemma analyze_skills_order_irrelevant_witness :
  analyze_skills [("Data", ["SQL"; "Excel"]); ("Programming", ["Go"; "SQL"])]
                 "sql and go"
  = analyze_skills [("Programming", ["SQL"; "Go"; "SQL"]); ("Data", ["Excel"])]
                   "sql and go".
Proof.
  apply analyze_skills_order_irrelevant.
  change (["SQL"; "Excel"; "Go"; "SQL"] ≡ₚ ["SQL"; "Go"; "SQL"; "Excel"]).
  apply perm_skip. etrans; [apply perm_swap|]. apply perm_skip, perm_swap.
Defined.

(** A count takes no more room than the text has: for a non-empty name
    listed [m] times, [len(name) * count ≤ m * len(text)]. *)
Theorem analyze_skills_count_bound
    (skills_db : taxonomy) (text skill : string) (cnt : Z) :
  skill ≠ "" →
  analyze_skills skills_db text !! skill = Some cnt →
  Py.len skill * cnt
    ≤ Z.of_nat (listings skill (all_skills skills_db)) * Py.len text.
Proof.
  intros Hne. rewrite analyze_skills_lookup.
  destruct (Py.contains (Py.lower skill) text); [|done].
  destruct (listings skill (all_skills skills_db)) as [|n]; [done|].
  intros [= <-].
  assert (Py.lower skill ≠ "") as Hl by (intros ?%lower_empty; done).
  pose proof (count_bound (Py.lower skill) text Hl) as Hb.
  pose proof (count_nonneg (Py.lower skill) text).
  unfold Py.len in *. rewrite length_lower in Hb. nia.
Qed.

Lemma analyze_skills_count_bound_witness :
  Py.len "Go" * 3 ≤ Z.of_nat 1 * Py.len "gogogo".
Proof.
  refine (analyze_skills_count_bound [("Programming", ["Go"; "R"])]
            "gogogo" "Go" 3 _ _).
  - discriminate.
  - vm_compute. reflexivity.
Defined.

(** Adding categories to the taxonomy, before or after, never removes a key
    and never lowers a count. *)
Theorem analyze_skills_grows
    (before skills_db after : taxonomy) (text skill : string) (cnt : Z) :
  analyze_skills skills_db text !! skill = Some cnt →
  ∃ cnt', analyze_skills (before ++ skills_db ++ after) text !! skill = Some cnt'
          ∧ cnt ≤ cnt'.
Proof.
  rewrite !analyze_skills_lookup, !all_skills_app, !listings_app.
  destruct (Py.contains (Py.lower skill) text); [|done].
  pose proof (count_nonneg (Py.lower skill) text).
  destruct (listings skill (all_skills skills_db)) as [|n]; [done|].
  intros [= <-].
  replace (listings skill (all_skills before)
           + (S n + listings skill (all_skills after)))%nat
    with (S (listings skill (all_skills before) + n
             + listings skill (all_skills after))) by lia.
  eexists. split; [done|]. nia.
Qed.

Lemma analyze_skills_grows_witness :
  ∃ cnt', analyze_skills ([("Data", ["SQL"])] ++ [("Programming", ["SQL"; "Go"])]
                            ++ [("DevOps", ["AWS"])]) "sql" !! "SQL" = Some cnt'
          ∧ 1 ≤ cnt'.
Proof.
  apply (analyze_skills_grows [("Data", ["SQL"])] [("Programming", ["SQL"; "Go"])]
           [("DevOps", ["AWS"])] "sql" "SQL" 1).
  vm_compute. reflexivity.
Defined.

(** Matching is by substring: when the lower-cased name of one listed skill
    is part of the lower-cased name of another, every text that counts the
    longer name counts the shorter one too ("Java" with "JavaScript"). *)
Theorem analyze_skills_substring_names
    (skills_db : taxonomy) (text short long : string) :
  short ∈ all_skills skills_db →
  Py.contains (Py.lower short) (Py.lower long) = true →
  is_Some (analyze_skills skills_db text !! long) →
  is_Some (analyze_skills skills_db text !! short).
Proof.
  intros Hin Hsub [_ Hlong]%analyze_skills_keys.
  apply analyze_skills_keys. split; [done|]. by eapply contains_trans.
Qed.

Lemma analyze_skills_substring_names_witness :
  is_Some (analyze_skills DEFAULT_SKILLS "i write javascript" !! "Java").
Proof.
  apply (analyze_skills_substring_names DEFAULT_SKILLS "i write javascript"
           "Java" "JavaScript").
  - by_computation.
  - vm_compute. reflexivity.
  - by_computation.
Defined.

(** ** More on the suggestion engine *)

Lemma category_suggestion_length (skill_counts : gmap string Z)
    (entry : string * list string) :
  (length (category_suggestion skill_counts entry) ≤ 1)%nat.
Proof.
  unfold category_suggestion. repeat case_decide; simpl; lia.
Qed.

Lemma category_suggestion_nil (skill_counts : gmap string Z)
    (entry : string * list string) :
  category_suggestion skill_counts entry = [] ↔
  (2 ≤ length (filter (λ s, is_Some (skill_counts !! s)) entry.2))%nat.
Proof.
  unfold category_suggestion.
  destruct (decide (filter (λ s, is_Some (skill_counts !! s)) entry.2 = []))
    as [He|Hne].
  - rewrite He. simpl. split; [done | lia].
  - case_decide; split; try done; lia.
Qed.

(** Every category is judged on its own: the suggestions for a taxonomy put
    together from two are those of the first followed by those of the
    second. *)
Theorem suggest_improvements_app
    (db1 db2 : taxonomy) (skill_counts : gmap string Z) :
  suggest_improvements (db1 ++ db2) skill_counts =
  suggest_improvements db1 skill_counts ++ suggest_improvements db2 skill_counts.
Proof.
  rewrite !suggest_improvements_concat. by rewrite fmap_app, concat_app.
Qed.

(** There is at most one suggestion per category. *)
Theorem suggest_improvements_length
    (skills_db : taxonomy) (skill_counts : gmap string Z) :
  (length (suggest_improvements skills_db skill_counts) ≤ length skills_db)%nat.
Proof.
  rewrite suggest_improvements_concat.
  induction skills_db as [|entry db IH]; [done|].
  rewrite fmap_cons. cbn [concat]. rewrite length_app.
  pose proof (category_suggestion_length skill_counts entry).
  simpl. lia.
Qed.

(** There is no suggestion at all exactly when every category has at least
    two entries that are keys of the counts. *)
Theorem suggest_improvements_none
    (skills_db : taxonomy) (skill_counts : gmap string Z) :
  suggest_improvements skills_db skill_counts = [] ↔
  ∀ entry, entry ∈ skills_db →
    (2 ≤ length (filter (λ s, is_Some (skill_counts !! s)) entry.2))%nat.
Proof.
  rewrite suggest_improvements_concat.
  induction skills_db as [|entry db IH].
  - split; [|done]. intros _ entry Hin. by apply elem_of_nil in Hin.
  - rewrite fmap_cons. cbn [concat].
    rewrite app_nil, category_suggestion_nil, IH. split.
    + intros [Hentry Hdb] e [->|Hin]%elem_of_cons; [done | by apply Hdb].
    + intros Hall. split; [apply Hall; by left|].
      intros e Hin. apply Hall. by right.
Qed.

(** Only the keys of the counts matter to the suggestions, the counts
    themselves do not. *)
Theorem suggest_improvements_keys_only
    (skills_db : taxonomy) (counts1 counts2 : gmap string Z) :
  dom counts1 = dom counts2 →
  suggest_improvements skills_db counts1 = suggest_improvements skills_db counts2.
Proof.
  intros Hdom. rewrite !suggest_improvements_concat. f_equal.
  apply list_fmap_ext. intros _ [category skills] _.
  assert (∀ s, is_Some (counts1 !! s) ↔ is_Some (counts2 !! s)) as Hkeys.
  { intros s. by rewrite <- !elem_of_dom, Hdom. }
  unfold category_suggestion. cbn [fst snd].
  rewrite (list_filter_iff (λ s, is_Some (counts1 !! s))
             (λ s, is_Some (counts2 !! s))) by done.
  rewrite (list_filter_iff (λ s, counts1 !! s = None)
             (λ s, counts2 !! s = None)); [done|].
  intros s. rewrite !eq_None_not_Some. by rewrite Hkeys.
Qed.

Lemma suggest_improvements_keys_only_witness :
  suggest_improvements DEFAULT_SKILLS {[ "SQL" := 1; "Go" := 7 ]}
  = suggest_improvements DEFAULT_SKILLS {[ "SQL" := 40; "Go" := 2 ]}.
Proof.
  apply suggest_improvements_keys_only. by_computation.
Defined.

(** A category that lists fewer than two skills can never be satisfied: it
    always gets its one suggestion.  When its only skill was found, the
    "few" message has nothing to propose. *)
Theorem suggest_improvements_small_category
    (category : string) (skills : list string) (skill_counts : gmap string Z) :
  (length skills < 2)%nat →
  (∃ message,
     suggest_improvements [(category, skills)] skill_counts = [message]) ∧
  (∀ skill, skills = [skill] → is_Some (skill_counts !! skill) →
     suggest_improvements [(category, skills)] skill_counts
       = ["ℹ️ Few " +:+ category +:+ " skills. Could add "]).
Proof.
  intros Hlen. rewrite suggest_improvements_concat. simpl.
  rewrite app_nil_r. split.
  - pose proof (length_filter (λ s, is_Some (skill_counts !! s)) skills).
    unfold category_suggestion. cbn [fst snd].
    repeat case_decide; try by eexists. lia.
  - intros skill -> Hkey. unfold category_suggestion. cbn [fst snd].
    rewrite (filter_cons_True _ skill []) by done.
    rewrite (filter_cons_False _ skill []).
    2:{ intros Hnone. rewrite Hnone in Hkey. by destruct Hkey. }
    rewrite decide_False by done. rewrite decide_True by (simpl; lia).
    unfold few_message. by rewrite filter_nil.
Qed.

Lemma suggest_improvements_small_category_witness :
  suggest_improvements [("Cloud", ["AWS"])] {[ "AWS" := 3 ]}
  = ["ℹ️ Few Cloud skills. Could add "].
Proof.
  refine (proj2 (suggest_improvements_small_category
                   "Cloud" ["AWS"] {[ "AWS" := 3 ]} _) "AWS" _ _).
  - simpl. lia.
  - reflexivity.
  - by_computation.
Defined.

(** What is counted for a category are the entries of its list that are
    keys, not the different names: a found skill that the category lists
    twice satisfies the category by itself. *)
Theorem suggest_improvements_repeated_skill
    (category skill : string) (skills : list string)
    (skill_counts : gmap string Z) :
  is_Some (skill_counts !! skill) →
  (2 ≤ listings skill skills)%nat →
  suggest_improvements [(category, skills)] skill_counts = [].
Proof.
  intros Hkey Htwice. apply suggest_improvements_none.
  intros entry ->%list_elem_of_singleton. cbn [snd].
  etrans; [exact Htwice|]. unfold listings.
  rewrite <- (list_filter_filter_l (λ s, s = skill)
                (λ s, is_Some (skill_counts !! s))) by (by intros ? ->).
  apply length_filter.
Qed.

Lemma suggest_improvements_repeated_skill_witness :
  suggest_improvements [("Data", ["SQL"; "Excel"; "SQL"])] {[ "SQL" := 2 ]} = [].
Proof.
  apply (suggest_improvements_repeated_skill "Data" "SQL").
  - by_computation.
  - vm_compute. lia.
Defined.

(** ** More on the report *)


(** When no skill was detected, something is suggested for every category:
    the report closes on its "all good" line only for a taxonomy without
    any category. *)
Theorem report_nothing_detected (skills_db : taxonomy) (text : string) :
  analyze_skills skills_db text = ∅ →
  length (suggest_improvements skills_db (analyze_skills skills_db text))
    = length skills_db ∧
  (report_lines (analyze_skills skills_db text)
     (suggest_improvements skills_db (analyze_skills skills_db text))
   = [report_header; no_skills_line; all_good_line]
   ↔ skills_db = []).
Proof.
  intros ->. rewrite suggest_improvements_no_counts, length_fmap.
  split; [done|]. rewrite report_lines_empty by done.
  destruct skills_db as [|entry db]; [done|].
  split; [|done]. rewrite fmap_cons. by intros [=].
Qed.

Lemma report_nothing_detected_witness :
  length (suggest_improvements DEFAULT_SKILLS
            (analyze_skills DEFAULT_SKILLS "no match"))
  = length DEFAULT_SKILLS.
Proof.
  refine (proj1 (report_nothing_detected DEFAULT_SKILLS "no match" _)).
  vm_compute. reflexivity.
Defined.

(** ** More on the text extractor *)




(** An error of the PDF library leaves [extract_text] as it is, after the
    existence test and the attempt to open. *)
Theorem extract_text_pdf_error (w : world) (pdf_path : string) (e : exception) :
  path_exists w pdf_path = true →
  pdf_pages w pdf_path = inl e →
  extract_text w pdf_path = ([PathExists pdf_path; OpenPdf pdf_path], inl e).
Proof.
  intros Hexists Hpdf.
  unfold extract_text, os_path_exists, fitz_open, emit, mbind, io_bind.
  by rewrite Hexists, Hpdf.
Qed.

Lemma extract_text_pdf_error_witness :
  extract_text {| path_exists := λ _, true;
                  json_file := λ _, inr [];
                  pdf_pages := λ _, inl (OtherError "not a PDF") |} "notes.txt"
  = ([PathExists "notes.txt"; OpenPdf "notes.txt"],
     inl (OtherError "not a PDF")).
Proof. by apply extract_text_pdf_error. Defined.

(** ** More on the driver *)

(** Unfolds the driver down to the answers of the outside. *)
Ltac unfold_driver :=
  unfold main, main_try, extract_text, ResumeAnalyzer, load_skills_db,
    json_load, fitz_open, os_path_exists, print, emit, raise,
    mbind, mret, io_bind, io_ret.

(** Splits on every answer of the outside that the goal still waits for. *)
Ltac ask_world w :=
  repeat match goal with
    | |- context [json_file w ?p] =>
        let E := fresh "E" in destruct (json_file w p) as [?|[|??]] eqn:E
    | |- context [pdf_pages w ?p] =>
        let E := fresh "E" in destruct (pdf_pages w p) eqn:E
    | |- context [path_exists w ?p] =>
        let E := fresh "E" in destruct (path_exists w p) eqn:E
    end; cbn [app negb fst snd].

(** The driver prints all or nothing: either it exits with status 0 after
    two lines, the banner and the whole report of some taxonomy and text,
    or it exits through [exit(1)] with status 1 after the one error line.
    It never prints part of a report, or a report and an error. *)
Theorem main_all_or_nothing (w : world) (args : arguments) :
  ((main w args).2 = 0 ∧
   Forall exits_nowhere (main w args).1 ∧
   ∃ db text,
     printed (main w args).1 =
       [ Py.nl +:+ "📄 Analyzing: " +:+ Py.basename (resume args);
         generate_report (analyze_skills db text)
           (suggest_improvements db (analyze_skills db text)) ])
  ∨
  ((main w args).2 = 1 ∧
   last (main w args).1 = Some (Exit 1) ∧
   ∃ msg, printed (main w args).1 = [Py.nl +:+ "❌ Error: " +:+ msg]).
Proof.
  unfold_driver.
  destruct (skills args) as [[|c path]|]; cbn [app negb fst snd];
    ask_world w;
    first
      [ left; split; [reflexivity|];
        split; [repeat constructor|]; by eexists _, _
      | right; split; [reflexivity|];
        split; [reflexivity|]; by eexists ].
Qed.

(** A non-empty custom taxonomy is the one the analysis uses, and the
    conventional file is then not even looked for: the run reads the custom
    file, tests and opens the resume, and prints the banner and the report
    of the custom taxonomy on the lower-cased text of the pages. *)
Theorem main_custom_taxonomy
    (w : world) (pdf_path custom : string) (db : taxonomy) (pages : list string) :
  custom ≠ "" →
  json_file w custom = inr db →
  db ≠ [] →
  path_exists w pdf_path = true →
  pdf_pages w pdf_path = inr pages →
  let text := Py.lower (foldl String.app "" pages) in
  let counts := analyze_skills db text in
  main w {| resume := pdf_path; skills := Some custom |} =
    ([ OpenJson custom; PathExists pdf_path; OpenPdf pdf_path;
       Print (Py.nl +:+ "📄 Analyzing: " +:+ Py.basename pdf_path);
       Print (generate_report counts (suggest_improvements db counts)) ], 0).
Proof.
  intros Hcustom Hjson Hdb Hexists Hpdf. unfold_driver. cbn [skills resume].
  destruct custom as [|c custom]; [done|].
  rewrite Hjson. destruct db as [|entry db]; [done|].
  by rewrite Hexists, Hpdf.
Qed.

Lemma main_custom_taxonomy_witness :
  main {| path_exists := λ _, true;
          json_file := λ _, inr [("Data", ["SQL"; "Excel"])];
          pdf_pages := λ _, inr ["Excel and "; "SQL and more SQL"] |}
       {| resume := "docs/cv.pdf"; skills := Some "mine.json" |}
  = ([ OpenJson "mine.json"; PathExists "docs/cv.pdf"; OpenPdf "docs/cv.pdf";
       Print (Py.nl +:+ "📄 Analyzing: cv.pdf");
       Print (report_header +:+ Py.nl +:+ "• SQL: 2 mentions" +:+ Py.nl
                +:+ "• Excel: 1 mention" +:+ Py.nl +:+ all_good_line) ], 0).
Proof.
  refine (main_custom_taxonomy _ "docs/cv.pdf" "mine.json"
            [("Data", ["SQL"; "Excel"])] ["Excel and "; "SQL and more SQL"]
            _ _ _ _ _); [discriminate | reflexivity | discriminate
                         | reflexivity | reflexivity].
Defined.

(** Without a custom taxonomy the conventional file decides: when it is
    absent the built-in taxonomy is used; when it is there, its content is
    used as it is, an empty mapping too, in which case the report says that
    no skills were detected and that all is good. *)
Theorem main_conventional_file
    (w : world) (pdf_path : string) (pages : list string) :
  path_exists w pdf_path = true →
  pdf_pages w pdf_path = inr pages →
  let text := Py.lower (foldl String.app "" pages) in
  let banner := Print (Py.nl +:+ "📄 Analyzing: " +:+ Py.basename pdf_path) in
  let run db :=
    ([ PathExists SKILLS_DB_FILE ]
       ++ (if path_exists w SKILLS_DB_FILE then [OpenJson SKILLS_DB_FILE] else [])
       ++ [ PathExists pdf_path; OpenPdf pdf_path; banner;
            Print (generate_report (analyze_skills db text)
                     (suggest_improvements db (analyze_skills db text))) ], 0) in
  (path_exists w SKILLS_DB_FILE = false →
   main w {| resume := pdf_path; skills := None |} = run DEFAULT_SKILLS) ∧
  (∀ db, path_exists w SKILLS_DB_FILE = true →
         json_file w SKILLS_DB_FILE = inr db →
         main w {| resume := pdf_path; skills := None |} = run db) ∧
  (path_exists w SKILLS_DB_FILE = true →
   json_file w SKILLS_DB_FILE = inr [] →
   printed (main w {| resume := pdf_path; skills := None |}).1 =
     [ Py.nl +:+ "📄 Analyzing: " +:+ Py.basename pdf_path;
       report_header +:+ Py.nl +:+ no_skills_line +:+ Py.nl +:+ all_good_line ]).
Proof.
  intros Hexists Hpdf text banner run. subst run banner text.
  split; [|split].
  - intros Hfile. unfold_driver. cbn [skills resume].
    by rewrite Hfile, Hexists, Hpdf.
  - intros db Hfile Hjson. unfold_driver. cbn [skills resume].
    by rewrite Hfile, Hjson, Hexists, Hpdf.
  - intros Hfile Hjson. unfold_driver. cbn [skills resume].
    by rewrite Hfile, Hjson, Hexists, Hpdf.
Qed.

Lemma main_conventional_file_witness :
  printed (main {| path_exists := λ _, true;
                   json_file := λ _, inr [];
                   pdf_pages := λ _, inr ["Python and SQL"] |}
                {| resume := "cv.pdf"; skills := None |}).1
  = [ Py.nl +:+ "📄 Analyzing: cv.pdf";
      report_header +:+ Py.nl +:+ no_skills_line +:+ Py.nl +:+ all_good_line ].
Proof.
  refine (proj2 (proj2 (main_conventional_file
            {| path_exists := λ _, true;
               json_file := λ _, inr [];
               pdf_pages := λ _, inr ["Python and SQL"] |}
            "cv.pdf" ["Python and SQL"] _ _)) _ _); reflexivity.
Defined.

(** A custom taxonomy file that holds the empty mapping is read and then
    ignored: the run goes on exactly as the run without the flag. *)
Theorem main_empty_custom_taxonomy
    (w : world) (pdf_path custom : string) :
  custom ≠ "" →
  json_file w custom = inr [] →
  main w {| resume := pdf_path; skills := Some custom |} =
    (OpenJson custom :: (main w {| resume := pdf_path; skills := None |}).1,
     (main w {| resume := pdf_path; skills := None |}).2).
Proof.
  intros Hcustom Hjson. unfold_driver. cbn [skills resume].
  destruct custom as [|c custom]; [done|]. rewrite Hjson.
  cbn [app]. ask_world w; reflexivity.
Qed.

Lemma main_empty_custom_taxonomy_witness :
  main {| path_exists := λ path, bool_decide (path = "cv.pdf");
          json_file := λ _, inr [];
          pdf_pages := λ _, inr ["go"] |}
       {| resume := "cv.pdf"; skills := Some "empty.json" |}
  = (OpenJson "empty.json"
       :: (main {| path_exists := λ path, bool_decide (path = "cv.pdf");
                   json_file := λ _, inr [];
                   pdf_pages := λ _, inr ["go"] |}
                {| resume := "cv.pdf"; skills := None |}).1, 0).
Proof.
  refine (main_empty_custom_taxonomy _ "cv.pdf" "empty.json" _ _);
    [discriminate | reflexivity].
Defined.

(** When the custom taxonomy file cannot be read, the run stops there: the
    resume is not looked for, the one line printed is the error with the
    text of the exception, and the status is 1. *)
Theorem main_custom_taxonomy_error
    (w : world) (pdf_path custom : string) (e : exception) :
  custom ≠ "" →
  json_file w custom = inl e →
  main w {| resume := pdf_path; skills := Some custom |} =
    ([ OpenJson custom;
       Print (Py.nl +:+ "❌ Error: " +:+ exception_str e); Exit 1 ], 1).
Proof.
  intros Hcustom Hjson. unfold_driver. cbn [skills resume].
  destruct custom as [|c custom]; [done|]. by rewrite Hjson.
Qed.

Lemma main_custom_taxonomy_error_witness :
  main {| path_exists := λ _, true;
          json_file := λ _, inl (FileNotFoundError "No such file: mine.json");
          pdf_pages := λ _, inr ["go"] |}
       {| resume := "cv.pdf"; skills := Some "mine.json" |}
  = ([ OpenJson "mine.json";
       Print (Py.nl +:+ "❌ Error: No such file: mine.json"); Exit 1 ], 1).
Proof.
  refine (main_custom_taxonomy_error _ "cv.pdf" "mine.json"
            (FileNotFoundError "No such file: mine.json") _ _);
    [discriminate | reflexivity].
Defined.

(** When the resume exists but the PDF library fails on it, nothing of a
    report is printed: the run ends with the one error line and status 1,
    and the message is that of the library's exception unless loading the
    taxonomy had failed before. *)
Theorem main_pdf_error (w : world) (args : arguments) (e : exception) :
  path_exists w (resume args) = true →
  pdf_pages w (resume args) = inl e →
  ∃ msg,
    (main w args).2 = 1 ∧
    last (main w args).1 = Some (Exit 1) ∧
    printed (main w args).1 = [Py.nl +:+ "❌ Error: " +:+ msg] ∧
    (msg = exception_str e ∨
     ∃ path e', json_file w path = inl e' ∧ msg = exception_str e').
Proof.
  intros Hexists Hpdf. unfold_driver. rewrite Hexists, Hpdf. cbn [negb].
  destruct (skills args) as [[|c path]|]; cbn [app negb fst snd];
    ask_world w;
    eexists; (split; [reflexivity|]); (split; [reflexivity|]);
    (split; [reflexivity|]);
    first [ by left | right; by eexists _, _ ].
Qed.

Lemma main_pdf_error_witness :
  ∃ msg,
    (main {| path_exists := λ path, bool_decide (path = "cv.pdf");
             json_file := λ _, inr [];
             pdf_pages := λ _, inl (OtherError "cannot open broken document") |}
          {| resume := "cv.pdf"; skills := None |}).2 = 1 ∧
    last (main {| path_exists := λ path, bool_decide (path = "cv.pdf");
                  json_file := λ _, inr [];
                  pdf_pages := λ _, inl (OtherError "cannot open broken document") |}
               {| resume := "cv.pdf"; skills := None |}).1 = Some (Exit 1) ∧
    printed (main {| path_exists := λ path, bool_decide (path = "cv.pdf");
                     json_file := λ _, inr [];
                     pdf_pages := λ _, inl (OtherError "cannot open broken document") |}
                  {| resume := "cv.pdf"; skills := None |}).1
      = [Py.nl +:+ "❌ Error: " +:+ msg] ∧
    (msg = exception_str (OtherError "cannot open broken document") ∨
     ∃ path e',
       json_file {| path_exists := λ path, bool_decide (path = "cv.pdf");
                    json_file := λ _, inr [];
                    pdf_pages := λ _, inl (OtherError "cannot open broken document") |}
                 path = inl e' ∧ msg = exception_str e').
Proof.
  apply (main_pdf_error
           {| path_exists := λ path, bool_decide (path = "cv.pdf");
              json_file := λ _, inr [];
              pdf_pages := λ _, inl (OtherError "cannot open broken document") |}
           {| resume := "cv.pdf"; skills := None |}
           (OtherError "cannot open broken document")); reflexivity.
Defined.
